(** * supabase-py: the [Client] facade of [supabase/client.py]

    A shallow embedding of the facade, followed by its properties.

    - A Python [str] is a [string]; its characters are those of [ascii].
    - [str.split], [str.replace], f-string formatting, [re.match] and
      [re.search] are modelled in [Py] and [Re]. The three patterns of the
      source are values of a small regular-expression syntax; the matcher is
      proved to decide the meaning the [re] documentation gives them.
    - The sub-client libraries (gotrue, postgrest, storage3, supafunc) are
      an interface, [Backend]: every definition and theorem is parametric in
      it. A sub-client call may return or raise and may change the state of
      the libraries; the calls are recorded in order.
    - A method of [Client] is a function from the object and the world to a
      result, the object and the world ([M]). Attributes are assigned by
      [__init__] one after the other, as in the source.
    - [options.headers] is a dictionary that [__init__] updates in place
      after it has been handed to the auth sub-client: it lives in the
      shared store and is passed by reference. *)

From Stdlib Require Import Ascii String Bool Arith Lia.
From stdpp Require Import base option list strings gmap.

Local Open Scope char_scope.
Local Open Scope stdpp_scope.

(* stdpp freezes [String.append] under [simpl]; the proofs below unfold it. *)
#[local] Arguments String.append !s1 s2 : simpl nomatch.

(** * Part I: the embedding *)

(** ** Strings *)

Module Str.

(** [s == ""]; Python's [not s] on a [str] is exactly this test. *)
Definition is_empty (s : string) : bool :=
  match s with EmptyString => true | String _ _ => false end.

(** [s.startswith(p)]. *)
Fixpoint starts_with (p s : string) : bool :=
  match p, s with
  | EmptyString, _ => true
  | String a p', String b s' => Ascii.eqb a b && starts_with p' s'
  | String _ _, EmptyString => false
  end.

(** Every character of [s] satisfies [p]. *)
Fixpoint all (p : ascii -> bool) (s : string) : bool :=
  match s with
  | EmptyString => true
  | String c s' => p c && all p s'
  end.

(** [sub in s]. *)
Fixpoint contains (sub s : string) : bool :=
  starts_with sub s ||
  match s with
  | EmptyString => false
  | String _ s' => contains sub s'
  end.

End Str.

(** ** Python built-ins used by the facade *)

Module Py.

(** Truthiness of a [str]: every string but the empty one is true. *)
Definition truthy (s : string) : bool := negb (Str.is_empty s).

(** [s.split(sep)] for a one-character separator, which is how the source
    calls it ([supabase_url.split(".")]): every occurrence of [sep] ends a
    piece, and the result always has at least one piece. *)
Fixpoint split (sep : ascii) (s : string) : list string :=
  match s with
  | EmptyString => [EmptyString]
  | String c s' =>
      if Ascii.eqb c sep then EmptyString :: split sep s'
      else match split sep s' with
           | piece :: pieces => String c piece :: pieces
           | [] => [String c EmptyString]
           end
  end.

(** [s.replace(old, new)] for a non-empty [old]: the occurrences of [old]
    are found from left to right and do not overlap. [skip] counts the
    characters of an occurrence that are still to be dropped. *)
Fixpoint replace_from (old new : string) (skip : nat) (s : string) : string :=
  match s with
  | EmptyString => EmptyString
  | String c s' =>
      match skip with
      | S k => replace_from old new k s'
      | O =>
          if Str.starts_with old s
          then new +:+ replace_from old new (String.length old - 1) s'
          else String c (replace_from old new 0 s')
      end
  end.

(** With an empty [old] Python puts [new] before every character and at
    the end. *)
Fixpoint interleave (new s : string) : string :=
  match s with
  | EmptyString => new
  | String c s' => new +:+ String c (interleave new s')
  end.

Definition replace (old new s : string) : string :=
  if Str.is_empty old then interleave new s else replace_from old new 0 s.

(** What [s.replace(old, new)] is documented to return for a non-empty
    [old]: a copy of [s] with all occurrences of [old] replaced by [new],
    the occurrences being taken from left to right without overlap. *)
Inductive Replaced (old new : string) : string -> string -> Prop :=
| Replaced_end : Replaced old new "" ""
| Replaced_hit s t :
    Replaced old new s t -> Replaced old new (old +:+ s) (new +:+ t)
| Replaced_miss c s t :
    Str.starts_with old (String c s) = false ->
    Replaced old new s t -> Replaced old new (String c s) (String c t).

(** [sep.join(pieces)] for a one-character separator. *)
Fixpoint join (sep : ascii) (pieces : list string) : string :=
  match pieces with
  | [] => EmptyString
  | [piece] => piece
  | piece :: pieces' => piece +:+ String sep (join sep pieces')
  end.

(** [l[i]]: [None] stands for the [IndexError] of an index out of range
    (only non-negative indices are used by the source). *)
Definition index {A : Type} (l : list A) (i : nat) : option A := l !! i.

(** The text an f-string gives for [{v}] when [v] is a [str] or [None]. *)
Definition format (v : option string) : string :=
  match v with
  | Some s => s
  | None => "None"
  end.

End Py.

(** ** Regular expressions

    The fragment of Python's [re] syntax that the source uses, with the
    meaning the [re] documentation gives it (no flags are passed, so [.]
    excludes the newline, [^] holds only at the start of the string and [$]
    at the end of the string or just before a newline that ends it). *)

Module Re.

Inductive regex : Type :=
| Fail                          (* matches nothing; arises from derivatives only *)
| Eps                           (* the empty pattern *)
| Bol                           (* [^] *)
| Eol                           (* [$] *)
| Class (p : ascii -> bool)     (* one character: a literal, [.] or [[...]] *)
| Seq (r1 r2 : regex)           (* [r1 r2] *)
| Alt (r1 r2 : regex)           (* [r1|r2] *)
| Star (r : regex).             (* [r*] *)

Definition Chr (c : ascii) : regex := Class (Ascii.eqb c).
Definition Dot : regex := Class (fun c => negb (Ascii.eqb c "010")).
Definition Plus (r : regex) : regex := Seq r (Star r).
Definition Opt (r : regex) : regex := Alt r Eps.
(** A capturing group [(r)] matches what [r] matches. *)
Definition Group (r : regex) : regex := r.

Fixpoint Lit (s : string) : regex :=
  match s with
  | EmptyString => Eps
  | String c s' => Seq (Chr c) (Lit s')
  end.

(** [c] lies in the range [lo-hi] of a character class. *)
Definition in_range (lo hi c : ascii) : bool :=
  (nat_of_ascii lo <=? nat_of_ascii c)%nat && (nat_of_ascii c <=? nat_of_ascii hi)%nat.

(** [c] is one of the characters of [s]. *)
Fixpoint one_of (s : string) (c : ascii) : bool :=
  match s with
  | EmptyString => false
  | String d s' => Ascii.eqb d c || one_of s' c
  end.

(** [$] holds when nothing, or exactly one newline, is left. *)
Definition at_eol (rest : string) : bool :=
  match rest with
  | EmptyString => true
  | String c EmptyString => Ascii.eqb c "010"
  | String _ (String _ _) => false
  end.

(** [r] matches the empty string at a position that is the start of the
    string iff [bol], and where [rest] is what remains of the string. *)
Fixpoint nullable (bol : bool) (rest : string) (r : regex) : bool :=
  match r with
  | Fail => false
  | Eps => true
  | Bol => bol
  | Eol => at_eol rest
  | Class _ => false
  | Seq r1 r2 => nullable bol rest r1 && nullable bol rest r2
  | Alt r1 r2 => nullable bol rest r1 || nullable bol rest r2
  | Star _ => true
  end.

(** Brzozowski derivative of [r] by the character [c], which is followed by
    [rest] in the string. *)
Fixpoint deriv (bol : bool) (c : ascii) (rest : string) (r : regex) : regex :=
  match r with
  | Fail | Eps | Bol | Eol => Fail
  | Class p => if p c then Eps else Fail
  | Seq r1 r2 =>
      Alt (Seq (deriv bol c rest r1) r2)
          (if nullable bol (String c rest) r1 then deriv bol c rest r2 else Fail)
  | Alt r1 r2 => Alt (deriv bol c rest r1) (deriv bol c rest r2)
  | Star r1 => Seq (deriv bol c rest r1) (Star r1)
  end.

(** Some prefix of [s] is matched by [r]. *)
Fixpoint matches_at (bol : bool) (r : regex) (s : string) : bool :=
  nullable bol s r ||
  match s with
  | EmptyString => false
  | String c s' => matches_at false (deriv bol c s' r) s'
  end.

(** Some substring of [s] is matched by [r]. *)
Fixpoint matches_from (bol : bool) (r : regex) (s : string) : bool :=
  matches_at bol r s ||
  match s with
  | EmptyString => false
  | String _ s' => matches_from false r s'
  end.

(** [re.match(r, s)] tries at the start of [s] only; [re.search(r, s)] at
    every position. Both are used by the source for their truth value: a
    match object is true, [None] is false. *)
Definition re_match (r : regex) (s : string) : bool := matches_at true r s.
Definition re_search (r : regex) (s : string) : bool := matches_from true r s.

(** What a pattern means: [Matches r bol s rest] says that [r] matches
    exactly [s], at a position that starts the string iff [bol] and with
    [rest] following [s]. *)
Inductive Matches : regex -> bool -> string -> string -> Prop :=
| MEps bol rest : Matches Eps bol "" rest
| MBol rest : Matches Bol true "" rest
| MEol bol rest : at_eol rest = true -> Matches Eol bol "" rest
| MClass p c bol rest : p c = true -> Matches (Class p) bol (String c "") rest
| MSeq r1 r2 bol s1 s2 rest :
    Matches r1 bol s1 (s2 +:+ rest) ->
    Matches r2 (bol && Str.is_empty s1) s2 rest ->
    Matches (Seq r1 r2) bol (s1 +:+ s2) rest
| MAltL r1 r2 bol s rest : Matches r1 bol s rest -> Matches (Alt r1 r2) bol s rest
| MAltR r1 r2 bol s rest : Matches r2 bol s rest -> Matches (Alt r1 r2) bol s rest
| MStar0 r bol rest : Matches (Star r) bol "" rest
| MStarS r bol s1 s2 rest :
    Matches r bol s1 (s2 +:+ rest) ->
    Matches (Star r) (bol && Str.is_empty s1) s2 rest ->
    Matches (Star r) bol (s1 +:+ s2) rest.

End Re.

(** ** The three patterns of [Client.__init__] *)

(** The class [[A-Za-z0-9-_=]]: after the range [0-9] the hyphen is a
    literal. *)
Definition jwt_char (c : ascii) : bool :=
  Re.in_range "A" "Z" c || Re.in_range "a" "z" c || Re.in_range "0" "9" c ||
  Re.one_of "-_=" c.

(** The class [[A-Za-z0-9-_.+/=]]. *)
Definition jwt_tail_char (c : ascii) : bool :=
  Re.in_range "A" "Z" c || Re.in_range "a" "z" c || Re.in_range "0" "9" c ||
  Re.one_of "-_.+/=" c.

(** [r"^(https?)://.+"] *)
Definition url_pattern : Re.regex :=
  Re.Seq Re.Bol
    (Re.Seq (Re.Group (Re.Seq (Re.Lit "http") (Re.Opt (Re.Chr "s"))))
       (Re.Seq (Re.Lit "://") (Re.Plus Re.Dot))).

(** [r"^[A-Za-z0-9-_=]+\.[A-Za-z0-9-_=]+\.?[A-Za-z0-9-_.+/=]*$"] *)
Definition key_pattern : Re.regex :=
  Re.Seq Re.Bol
    (Re.Seq (Re.Plus (Re.Class jwt_char))
       (Re.Seq (Re.Chr ".")
          (Re.Seq (Re.Plus (Re.Class jwt_char))
             (Re.Seq (Re.Opt (Re.Chr "."))
                (Re.Seq (Re.Star (Re.Class jwt_tail_char)) Re.Eol))))).

(** [r"(supabase\.co)|(supabase\.in)"] *)
Definition platform_pattern : Re.regex :=
  Re.Alt (Re.Group (Re.Lit "supabase.co")) (Re.Group (Re.Lit "supabase.in")).


(** ** The sub-client libraries

    [SupabaseAuthClient], [SyncPostgrestClient], [SupabaseStorageClient] and
    [FunctionsClient] are not part of the facade. Their objects are opaque,
    and each of their entry points that the facade calls is a function on
    the state they share with it: it returns a value or raises, and leaves a
    new state. A dictionary that the facade builds for one call is passed by
    value; [options.headers], which outlives the call, by reference. A
    session object is true in a condition, [None] is false. *)

Definition loc : Type := positive.

(** A [Dict[str, str]]. *)
Abbreviation dict := (gmap string string).

(** The state outside the facade: the dictionaries that are passed by
    reference (the [headers] of a [ClientOptions]) and whatever the
    sub-client libraries keep. *)
Record Store (X : Type) : Type := {
  dicts : gmap loc dict;
  ext : X
}.
Arguments dicts {X} _.
Arguments ext {X} _.

Class Backend : Type := {
  AuthClient : Type;
  PostgrestClient : Type;
  StorageClient : Type;
  FunctionsClient : Type;
  Session : Type;
  AuthResponse : Type;
  RequestBuilder : Type;
  FilterRequestBuilder : Type;
  SessionStorage : Type;
  Timeout : Type;
  Params : Type;
  (** what a sub-client raises, and what the libraries keep *)
  ExtError : Type;
  ExtState : Type;
  (** [data.access_token] *)
  access_token : Session -> string;
  (** [SupabaseAuthClient(url=, auto_refresh_token=, persist_session=, storage=, headers=)] *)
  new_auth_client :
    string -> bool -> bool -> SessionStorage -> loc ->
    Store ExtState -> (ExtError + AuthClient) * Store ExtState;
  (** [auth.get_session()]: a session, or [None] *)
  auth_get_session :
    AuthClient -> Store ExtState -> (ExtError + option Session) * Store ExtState;
  (** [auth.set_session(access_token, refresh_token)] *)
  auth_set_session :
    AuthClient -> string -> string ->
    Store ExtState -> (ExtError + AuthResponse) * Store ExtState;
  (** [SyncPostgrestClient(rest_url, headers=, schema=, timeout=)] *)
  new_postgrest_client :
    string -> loc -> string -> Timeout ->
    Store ExtState -> (ExtError + PostgrestClient) * Store ExtState;
  (** [postgrest.auth(token)] *)
  postgrest_auth :
    PostgrestClient -> string -> Store ExtState -> (ExtError + unit) * Store ExtState;
  (** [postgrest.from_(table_name)] *)
  postgrest_from :
    PostgrestClient -> string ->
    Store ExtState -> (ExtError + RequestBuilder) * Store ExtState;
  (** [postgrest.rpc(fn, params)] *)
  postgrest_rpc :
    PostgrestClient -> string -> Params ->
    Store ExtState -> (ExtError + FilterRequestBuilder) * Store ExtState;
  (** [SupabaseStorageClient(storage_url, headers, timeout)] *)
  new_storage_client :
    string -> dict -> Timeout ->
    Store ExtState -> (ExtError + StorageClient) * Store ExtState;
  (** [FunctionsClient(functions_url, headers)] *)
  new_functions_client :
    string -> dict -> Store ExtState -> (ExtError + FunctionsClient) * Store ExtState
}.

(** [ClientOptions] of [lib/client_options.py]: the fields that the facade
    reads. [headers] is a reference, since [__init__] updates the
    dictionary in place. *)
Module ClientOptions.
Record t `{Backend} : Type := {
  schema : string;
  headers : loc;
  auto_refresh_token : bool;
  persist_session : bool;
  storage : SessionStorage;
  postgrest_client_timeout : Timeout;
  storage_client_timeout : Timeout
}.
End ClientOptions.

(** The attributes of a [Client] object.

    An attribute is [None] until [__init__] assigns it; reading it before
    that raises [AttributeError]. [realtime] is assigned Python's [None],
    which is [Some tt] here. *)
Module Client.
Record t `{Backend} : Type := {
  supabase_url : option string;
  supabase_key : option string;
  rest_url : option string;
  realtime_url : option string;
  auth_url : option string;
  storage_url : option string;
  functions_url : option string;
  schema : option string;
  auth : option AuthClient;
  realtime : option unit;
  postgrest : option PostgrestClient;
  storage : option StorageClient
}.

Definition set_supabase_url `{Backend} (v : string) (self : t) : t :=
  {| supabase_url := Some v;
     supabase_key := supabase_key self;
     rest_url := rest_url self;
     realtime_url := realtime_url self;
     auth_url := auth_url self;
     storage_url := storage_url self;
     functions_url := functions_url self;
     schema := schema self;
     auth := auth self;
     realtime := realtime self;
     postgrest := postgrest self;
     storage := storage self |}.

Definition set_supabase_key `{Backend} (v : string) (self : t) : t :=
  {| supabase_url := supabase_url self;
     supabase_key := Some v;
     rest_url := rest_url self;
     realtime_url := realtime_url self;
     auth_url := auth_url self;
     storage_url := storage_url self;
     functions_url := functions_url self;
     schema := schema self;
     auth := auth self;
     realtime := realtime self;
     postgrest := postgrest self;
     storage := storage self |}.

Definition set_rest_url `{Backend} (v : string) (self : t) : t :=
  {| supabase_url := supabase_url self;
     supabase_key := supabase_key self;
     rest_url := Some v;
     realtime_url := realtime_url self;
     auth_url := auth_url self;
     storage_url := storage_url self;
     functions_url := functions_url self;
     schema := schema self;
     auth := auth self;
     realtime := realtime self;
     postgrest := postgrest self;
     storage := storage self |}.

Definition set_realtime_url `{Backend} (v : string) (self : t) : t :=
  {| supabase_url := supabase_url self;
     supabase_key := supabase_key self;
     rest_url := rest_url self;
     realtime_url := Some v;
     auth_url := auth_url self;
     storage_url := storage_url self;
     functions_url := functions_url self;
     schema := schema self;
     auth := auth self;
     realtime := realtime self;
     postgrest := postgrest self;
     storage := storage self |}.

Definition set_auth_url `{Backend} (v : string) (self : t) : t :=
  {| supabase_url := supabase_url self;
     supabase_key := supabase_key self;
     rest_url := rest_url self;
     realtime_url := realtime_url self;
     auth_url := Some v;
     storage_url := storage_url self;
     functions_url := functions_url self;
     schema := schema self;
     auth := auth self;
     realtime := realtime self;
     postgrest := postgrest self;
     storage := storage self |}.

Definition set_storage_url `{Backend} (v : string) (self : t) : t :=
  {| supabase_url := supabase_url self;
     supabase_key := supabase_key self;
     rest_url := rest_url self;
     realtime_url := realtime_url self;
     auth_url := auth_url self;
     storage_url := Some v;
     functions_url := functions_url self;
     schema := schema self;
     auth := auth self;
     realtime := realtime self;
     postgrest := postgrest self;
     storage := storage self |}.

Definition set_functions_url `{Backend} (v : string) (self : t) : t :=
  {| supabase_url := supabase_url self;
     supabase_key := supabase_key self;
     rest_url := rest_url self;
     realtime_url := realtime_url self;
     auth_url := auth_url self;
     storage_url := storage_url self;
     functions_url := Some v;
     schema := schema self;
     auth := auth self;
     realtime := realtime self;
     postgrest := postgrest self;
     storage := storage self |}.

Definition set_schema `{Backend} (v : string) (self : t) : t :=
  {| supabase_url := supabase_url self;
     supabase_key := supabase_key self;
     rest_url := rest_url self;
     realtime_url := realtime_url self;
     auth_url := auth_url self;
     storage_url := storage_url self;
     functions_url := functions_url self;
     schema := Some v;
     auth := auth self;
     realtime := realtime self;
     postgrest := postgrest self;
     storage := storage self |}.

Definition set_auth `{Backend} (v : AuthClient) (self : t) : t :=
  {| supabase_url := supabase_url self;
     supabase_key := supabase_key self;
     rest_url := rest_url self;
     realtime_url := realtime_url self;
     auth_url := auth_url self;
     storage_url := storage_url self;
     functions_url := functions_url self;
     schema := schema self;
     auth := Some v;
     realtime := realtime self;
     postgrest := postgrest self;
     storage := storage self |}.

Definition set_realtime `{Backend} (v : unit) (self : t) : t :=
  {| supabase_url := supabase_url self;
     supabase_key := supabase_key self;
     rest_url := rest_url self;
     realtime_url := realtime_url self;
     auth_url := auth_url self;
     storage_url := storage_url self;
     functions_url := functions_url self;
     schema := schema self;
     auth := auth self;
     realtime := Some v;
     postgrest := postgrest self;
     storage := storage self |}.

Definition set_postgrest `{Backend} (v : PostgrestClient) (self : t) : t :=
  {| supabase_url := supabase_url self;
     supabase_key := supabase_key self;
     rest_url := rest_url self;
     realtime_url := realtime_url self;
     auth_url := auth_url self;
     storage_url := storage_url self;
     functions_url := functions_url self;
     schema := schema self;
     auth := auth self;
     realtime := realtime self;
     postgrest := Some v;
     storage := storage self |}.

Definition set_storage `{Backend} (v : StorageClient) (self : t) : t :=
  {| supabase_url := supabase_url self;
     supabase_key := supabase_key self;
     rest_url := rest_url self;
     realtime_url := realtime_url self;
     auth_url := auth_url self;
     storage_url := storage_url self;
     functions_url := functions_url self;
     schema := schema self;
     auth := auth self;
     realtime := realtime self;
     postgrest := postgrest self;
     storage := Some v |}.


Definition blank `{Backend} : t :=
  {| supabase_url := None;
     supabase_key := None;
     rest_url := None;
     realtime_url := None;
     auth_url := None;
     storage_url := None;
     functions_url := None;
     schema := None;
     auth := None;
     realtime := None;
     postgrest := None;
     storage := None |}.
End Client.

Section Facade.

Context `{B : Backend}.

(** *** Exceptions and the record of calls *)

Inductive exn : Type :=
| SupabaseException (message : string)
| IndexError
| AttributeError (name : string)
| SubClientError (e : ExtError).

Inductive outcome (A : Type) : Type :=
| Return (a : A)
| Raise (e : exn).
Arguments Return {A} _.
Arguments Raise {A} _.

(** The calls made into the sub-client libraries, in the order they are
    made. *)
Inductive Call : Type :=
| CallNewAuth (url : string) (auto_refresh_token persist_session : bool)
    (storage : SessionStorage) (headers : loc)
| CallGetSession (a : AuthClient)
| CallSetSession (a : AuthClient) (access_token refresh_token : string)
| CallNewPostgrest (rest_url : string) (headers : loc) (schema : string) (timeout : Timeout)
| CallPostgrestAuth (p : PostgrestClient) (token : string)
| CallPostgrestFrom (p : PostgrestClient) (table_name : string)
| CallPostgrestRpc (p : PostgrestClient) (fn : string) (params : Params)
| CallNewStorage (storage_url : string) (headers : dict) (timeout : Timeout)
| CallNewFunctions (functions_url : string) (headers : dict).

Record World : Type := {
  store : Store ExtState;
  calls : list Call
}.

(** A method body: it runs on [self] and on the world, and leaves both
    changed even when it raises. *)
Definition M (A : Type) : Type := Client.t -> World -> outcome A * Client.t * World.

Definition ret {A : Type} (a : A) : M A := fun self w => (Return a, self, w).

Definition raise {A : Type} (e : exn) : M A := fun self w => (Raise e, self, w).

Definition bind {A C : Type} (k : A -> M C) (m : M A) : M C :=
  fun self w =>
    match m self w with
    | (Return a, self', w') => k a self' w'
    | (Raise e, self', w') => (Raise e, self', w')
    end.

#[export] Instance M_ret : MRet M := @ret.
#[export] Instance M_bind : MBind M := @bind.

(** [self.name] *)
Definition getattr {A : Type} (name : string) (field : Client.t -> option A) : M A :=
  fun self w =>
    match field self with
    | Some v => (Return v, self, w)
    | None => (Raise (AttributeError name), self, w)
    end.

(** [self.name = v] *)
Definition setattr {A : Type} (set : A -> Client.t -> Client.t) (v : A) : M unit :=
  fun self w => (Return tt, set v self, w).

(** A call into a sub-client library: it is recorded, then made. *)
Definition call {A : Type} (c : Call)
    (f : Store ExtState -> (ExtError + A) * Store ExtState) : M A :=
  fun self w =>
    let '(r, st) := f (store w) in
    let w' := {| store := st; calls := calls w ++ [c] |} in
    match r with
    | inr a => (Return a, self, w')
    | inl e => (Raise (SubClientError e), self, w')
    end.

(** [d.update(other)] on the dictionary at [l]: the entries of [other]
    win. *)
Definition dict_update (l : loc) (other : dict) : M unit :=
  fun self w =>
    let st := store w in
    (Return tt, self,
     {| store := {| dicts := alter (fun d => other ∪ d) l (dicts st); ext := ext st |};
        calls := calls w |}).

(** [url_parts[i]] *)
Definition subscript {A : Type} (l : list A) (i : nat) : M A :=
  match Py.index l i with
  | Some v => mret v
  | None => raise IndexError
  end.

(** *** [class Client] *)

(** [Client._get_auth_headers] *)
Definition _get_auth_headers : M dict :=
  a ← getattr "auth" Client.auth;
  data ← call (CallGetSession a) (auth_get_session a);
  let token := match data with
               | Some d => Some (access_token d)
               | None => None
               end in
  key ← getattr "supabase_key" Client.supabase_key;
  mret (<["Authorization" := "Bearer " +:+ Py.format token]>
          (<["apiKey" := key]> (∅ : dict))).

(** [Client._init_supabase_auth_client] *)
Definition _init_supabase_auth_client
    (auth_url : string) (client_options : ClientOptions.t) : M AuthClient :=
  let auto_refresh_token := ClientOptions.auto_refresh_token client_options in
  let persist_session := ClientOptions.persist_session client_options in
  let storage := ClientOptions.storage client_options in
  let headers := ClientOptions.headers client_options in
  call (CallNewAuth auth_url auto_refresh_token persist_session storage headers)
       (new_auth_client auth_url auto_refresh_token persist_session storage headers).

(** [Client._init_postgrest_client] *)
Definition _init_postgrest_client
    (rest_url token : string) (headers : loc) (schema : string) (timeout : Timeout)
    : M PostgrestClient :=
  client ← call (CallNewPostgrest rest_url headers schema timeout)
                (new_postgrest_client rest_url headers schema timeout);
  call (CallPostgrestAuth client token) (postgrest_auth client token);;
  mret client.

(** [Client._init_storage_client] *)
Definition _init_storage_client
    (storage_url : string) (headers : dict) (storage_client_timeout : Timeout)
    : M StorageClient :=
  call (CallNewStorage storage_url headers storage_client_timeout)
       (new_storage_client storage_url headers storage_client_timeout).

(** [Client.__init__] *)
Definition Client_init
    (supabase_url supabase_key : string) (options : ClientOptions.t) : M unit :=
  (if negb (Py.truthy supabase_url)
   then raise (SupabaseException "supabase_url is required") else mret tt);;
  (if negb (Py.truthy supabase_key)
   then raise (SupabaseException "supabase_key is required") else mret tt);;
  (if negb (Re.re_match url_pattern supabase_url)
   then raise (SupabaseException "Invalid URL") else mret tt);;
  (if negb (Re.re_match key_pattern supabase_key)
   then raise (SupabaseException "Invalid API key") else mret tt);;
  setattr Client.set_supabase_url supabase_url;;
  setattr Client.set_supabase_key supabase_key;;
  setattr Client.set_rest_url (supabase_url +:+ "/rest/v1");;
  setattr Client.set_realtime_url (Py.replace "http" "ws" (supabase_url +:+ "/realtime/v1"));;
  setattr Client.set_auth_url (supabase_url +:+ "/auth/v1");;
  setattr Client.set_storage_url (supabase_url +:+ "/storage/v1");;
  let is_platform := Re.re_search platform_pattern supabase_url in
  (if is_platform then
     let url_parts := Py.split "." supabase_url in
     p0 ← subscript url_parts 0;
     p1 ← subscript url_parts 1;
     p2 ← subscript url_parts 2;
     setattr Client.set_functions_url (p0 +:+ ".functions." +:+ p1 +:+ "." +:+ p2)
   else
     setattr Client.set_functions_url (supabase_url +:+ "/functions/v1"));;
  setattr Client.set_schema (ClientOptions.schema options);;
  auth_url' ← getattr "auth_url" Client.auth_url;
  a ← _init_supabase_auth_client auth_url' options;
  setattr Client.set_auth a;;
  auth_headers ← _get_auth_headers;
  dict_update (ClientOptions.headers options) auth_headers;;
  setattr Client.set_realtime tt;;
  a' ← getattr "auth" Client.auth;
  data ← call (CallGetSession a') (auth_get_session a');
  token ← match data with
          | Some d => mret (access_token d)
          | None => getattr "supabase_key" Client.supabase_key
          end;
  rest_url' ← getattr "rest_url" Client.rest_url;
  p ← _init_postgrest_client rest_url' token
        (ClientOptions.headers options) (ClientOptions.schema options)
        (ClientOptions.postgrest_client_timeout options);
  setattr Client.set_postgrest p;;
  storage_url' ← getattr "storage_url" Client.storage_url;
  storage_headers ← _get_auth_headers;
  s ← _init_storage_client storage_url' storage_headers
        (ClientOptions.storage_client_timeout options);
  setattr Client.set_storage s.

(** [Client.set_session] *)
Definition set_session (access_token refresh_token : string) : M AuthResponse :=
  a ← getattr "auth" Client.auth;
  response ← call (CallSetSession a access_token refresh_token)
                  (auth_set_session a access_token refresh_token);
  p ← getattr "postgrest" Client.postgrest;
  call (CallPostgrestAuth p access_token) (postgrest_auth p access_token);;
  mret response.

(** [Client.functions] *)
Definition functions : M FunctionsClient :=
  functions_url' ← getattr "functions_url" Client.functions_url;
  headers ← _get_auth_headers;
  call (CallNewFunctions functions_url' headers)
       (new_functions_client functions_url' headers).

(** [Client.from_] *)
Definition from_ (table_name : string) : M RequestBuilder :=
  p ← getattr "postgrest" Client.postgrest;
  call (CallPostgrestFrom p table_name) (postgrest_from p table_name).

(** [Client.table] *)
Definition table (table_name : string) : M RequestBuilder :=
  from_ table_name.

(** [Client.rpc] *)
Definition rpc (fn : string) (params : Params) : M FilterRequestBuilder :=
  p ← getattr "postgrest" Client.postgrest;
  call (CallPostgrestRpc p fn params) (postgrest_rpc p fn params).

(** [Client(supabase_url=..., supabase_key=..., options=...)]: a new object
    is initialised by [__init__] and is the value of the expression unless
    [__init__] raises. *)
Definition Client_new
    (supabase_url supabase_key : string) (options : ClientOptions.t)
    (w : World) : outcome Client.t * World :=
  match Client_init supabase_url supabase_key options Client.blank w with
  | (Return _, self, w') => (Return self, w')
  | (Raise e, _, w') => (Raise e, w')
  end.

(** [create_client] *)
Definition create_client
    (supabase_url supabase_key : string) (options : ClientOptions.t)
    (w : World) : outcome Client.t * World :=
  Client_new supabase_url supabase_key options w.

End Facade.

Arguments Return {B A} _.
Arguments Raise {B A} _.

(** The four guards at the head of [__init__] all pass. *)
Definition accepted (supabase_url supabase_key : string) : bool :=
  Py.truthy supabase_url && Py.truthy supabase_key &&
  Re.re_match url_pattern supabase_url && Re.re_match key_pattern supabase_key.

(** ** An in-memory stand-in for the sub-client libraries

    Handles are the values the constructors were given. The only state is
    the session that [set_session] installed and the bearer token that
    [postgrest.auth] was last given; nothing ever raises. *)

Module TestBackend.

Record state : Type := {
  session : option (string * string);
  bearer : option string
}.

Definition with_ext (st : Store state) (x : state) : Store state :=
  {| dicts := dicts st; ext := x |}.

#[export] Instance backend : Backend := {|
  AuthClient := string;
  PostgrestClient := string;
  StorageClient := string * dict;
  FunctionsClient := string * dict;
  Session := string * string;
  AuthResponse := string * string;
  RequestBuilder := string * string;
  FilterRequestBuilder := string * string;
  SessionStorage := unit;
  Timeout := nat;
  Params := list (string * string);
  ExtError := Empty_set;
  ExtState := state;
  access_token := fst;
  new_auth_client := fun url _ _ _ _ st => (inr url, st);
  auth_get_session := fun _ st => (inr (session (ext st)), st);
  auth_set_session := fun _ access refresh st =>
    (inr (access, refresh),
     with_ext st {| session := Some (access, refresh); bearer := bearer (ext st) |});
  new_postgrest_client := fun rest_url _ _ _ st => (inr rest_url, st);
  postgrest_auth := fun _ token st =>
    (inr tt, with_ext st {| session := session (ext st); bearer := Some token |});
  postgrest_from := fun p table_name st => (inr (p, table_name), st);
  postgrest_rpc := fun p fn _ st => (inr (p, fn), st);
  new_storage_client := fun storage_url headers _ st => (inr (storage_url, headers), st);
  new_functions_client := fun functions_url headers st => (inr (functions_url, headers), st)
|}.

(** Default options: schema [public], an empty [headers] dictionary at
    location 1. *)
Definition options : ClientOptions.t :=
  {| ClientOptions.schema := "public";
     ClientOptions.headers := 1%positive;
     ClientOptions.auto_refresh_token := true;
     ClientOptions.persist_session := true;
     ClientOptions.storage := tt;
     ClientOptions.postgrest_client_timeout := 5;
     ClientOptions.storage_client_timeout := 20 |}.

(** A world where nothing has been called; [s] is the stored session. *)
Definition world (s : option (string * string)) : World :=
  {| store := {| dicts := {[ 1%positive := (∅ : dict) ]};
                 ext := {| session := s; bearer := None |} |};
     calls := [] |}.

(** The project URL and API key of the running example. *)
Definition url : string := "https://xyz.supabase.co".
Definition key : string := "a.b.c".

(** The client that [create_client url key options] builds when no session
    is stored, and the world it leaves. *)
Definition client : Client.t :=
  {| Client.supabase_url := Some "https://xyz.supabase.co";
     Client.supabase_key := Some "a.b.c";
     Client.rest_url := Some "https://xyz.supabase.co/rest/v1";
     Client.realtime_url := Some "wss://xyz.supabase.co/realtime/v1";
     Client.auth_url := Some "https://xyz.supabase.co/auth/v1";
     Client.storage_url := Some "https://xyz.supabase.co/storage/v1";
     Client.functions_url := Some "https://xyz.functions.supabase.co";
     Client.schema := Some "public";
     Client.auth := Some "https://xyz.supabase.co/auth/v1";
     Client.realtime := Some tt;
     Client.postgrest := Some "https://xyz.supabase.co/rest/v1";
     Client.storage :=
       Some ("https://xyz.supabase.co/storage/v1",
             <["Authorization" := "Bearer None"]> (<["apiKey" := "a.b.c"]> (∅ : dict))) |}.

Definition client_world : World := (create_client url key options (world None)).2.

End TestBackend.

(** ** What a caller observes of a method call *)

Section Observations.
Context `{B : Backend}.

Definition result_of {A : Type} (x : outcome A * Client.t * World) : outcome A := x.1.1.
Definition self_of {A : Type} (x : outcome A * Client.t * World) : Client.t := x.1.2.
Definition world_of {A : Type} (x : outcome A * Client.t * World) : World := x.2.

(** [wp m Q self w]: running [m] on [self] in [w] ends in a result, an
    object and a world that satisfy [Q]. *)
Definition wp {A : Type} (m : M A) (Q : outcome A -> Client.t -> World -> Prop)
    (self : Client.t) (w : World) : Prop :=
  Q (result_of (m self w)) (self_of (m self w)) (world_of (m self w)).

(** The object as [__init__] leaves it, whether it returns or raises. *)
Definition initialised (supabase_url supabase_key : string) (options : ClientOptions.t)
    (w : World) : Client.t :=
  self_of (Client_init supabase_url supabase_key options Client.blank w).

(** The operations that [Client] exposes, as a caller may issue them one
    after the other on the same object. *)
Inductive operation : Type :=
| OpSetSession (access_token refresh_token : string)
| OpFunctions
| OpTable (table_name : string)
| OpFrom (table_name : string)
| OpRpc (fn : string) (params : Params).

(** One operation; its result is dropped, the object and the world are
    kept. *)
Definition run_operation (op : operation) (self : Client.t) (w : World)
    : Client.t * World :=
  match op with
  | OpSetSession a r => let x := set_session a r self w in (self_of x, world_of x)
  | OpFunctions => let x := functions self w in (self_of x, world_of x)
  | OpTable n => let x := table n self w in (self_of x, world_of x)
  | OpFrom n => let x := from_ n self w in (self_of x, world_of x)
  | OpRpc fn params => let x := rpc fn params self w in (self_of x, world_of x)
  end.

Fixpoint run_operations (ops : list operation) (self : Client.t) (w : World)
    : Client.t * World :=
  match ops with
  | [] => (self, w)
  | op :: ops' =>
      let '(self', w') := run_operation op self w in run_operations ops' self' w'
  end.

End Observations.

(** ** Sub-client libraries that leave the shared dictionaries alone

    Nothing in the facade can stop a sub-client from writing to
    [options.headers]; what the facade itself does to that dictionary is
    stated for libraries that only read it. *)

Section KeepsDicts.
Context `{B : Backend}.

Record keeps_dicts : Prop := {
  keeps_new_auth_client : forall url r p s h st x st',
    new_auth_client url r p s h st = (x, st') -> dicts st' = dicts st;
  keeps_auth_get_session : forall a st x st',
    auth_get_session a st = (x, st') -> dicts st' = dicts st;
  keeps_auth_set_session : forall a access refresh st x st',
    auth_set_session a access refresh st = (x, st') -> dicts st' = dicts st;
  keeps_new_postgrest_client : forall url h schema t st x st',
    new_postgrest_client url h schema t st = (x, st') -> dicts st' = dicts st;
  keeps_postgrest_auth : forall p token st x st',
    postgrest_auth p token st = (x, st') -> dicts st' = dicts st;
  keeps_postgrest_from : forall p name st x st',
    postgrest_from p name st = (x, st') -> dicts st' = dicts st;
  keeps_postgrest_rpc : forall p fn params st x st',
    postgrest_rpc p fn params st = (x, st') -> dicts st' = dicts st;
  keeps_new_storage_client : forall url h t st x st',
    new_storage_client url h t st = (x, st') -> dicts st' = dicts st;
  keeps_new_functions_client : forall url h st x st',
    new_functions_client url h st = (x, st') -> dicts st' = dicts st
}.

End KeepsDicts.

(** ** Sub-client libraries that never raise *)

Section NeverRaises.
Context `{B : Backend}.

Record never_raises : Prop := {
  returns_new_auth_client : forall url r p s h st e st',
    new_auth_client url r p s h st <> (inl e, st');
  returns_auth_get_session : forall a st e st',
    auth_get_session a st <> (inl e, st');
  returns_auth_set_session : forall a access refresh st e st',
    auth_set_session a access refresh st <> (inl e, st');
  returns_new_postgrest_client : forall url h schema t st e st',
    new_postgrest_client url h schema t st <> (inl e, st');
  returns_postgrest_auth : forall p token st e st',
    postgrest_auth p token st <> (inl e, st');
  returns_postgrest_from : forall p name st e st',
    postgrest_from p name st <> (inl e, st');
  returns_postgrest_rpc : forall p fn params st e st',
    postgrest_rpc p fn params st <> (inl e, st');
  returns_new_storage_client : forall url h t st e st',
    new_storage_client url h t st <> (inl e, st');
  returns_new_functions_client : forall url h st e st',
    new_functions_client url h st <> (inl e, st')
}.

End NeverRaises.

(** ** Sub-client libraries whose auth service cannot be reached

    The constructor of the auth sub-client raises; nothing else is ever
    called with effect. *)

Module DownBackend.

#[export] Instance backend : Backend := {|
  AuthClient := unit;
  PostgrestClient := unit;
  StorageClient := unit;
  FunctionsClient := unit;
  Session := string;
  AuthResponse := unit;
  RequestBuilder := unit;
  FilterRequestBuilder := unit;
  SessionStorage := unit;
  Timeout := nat;
  Params := unit;
  ExtError := string;
  ExtState := unit;
  access_token := fun s => s;
  new_auth_client := fun _ _ _ _ _ st => (inl "auth is down", st);
  auth_get_session := fun _ st => (inr None, st);
  auth_set_session := fun _ _ _ st => (inr tt, st);
  new_postgrest_client := fun _ _ _ _ st => (inr tt, st);
  postgrest_auth := fun _ _ st => (inr tt, st);
  postgrest_from := fun _ _ st => (inr tt, st);
  postgrest_rpc := fun _ _ _ st => (inr tt, st);
  new_storage_client := fun _ _ _ st => (inr tt, st);
  new_functions_client := fun _ _ st => (inr tt, st)
|}.

Definition options : ClientOptions.t :=
  {| ClientOptions.schema := "public";
     ClientOptions.headers := 1%positive;
     ClientOptions.auto_refresh_token := true;
     ClientOptions.persist_session := true;
     ClientOptions.storage := tt;
     ClientOptions.postgrest_client_timeout := 5;
     ClientOptions.storage_client_timeout := 20 |}.

Definition world : World :=
  {| store := {| dicts := {[ 1%positive := (∅ : dict) ]}; ext := tt |};
     calls := [] |}.

End DownBackend.

(** * Part II: properties *)

(** ** Strings *)

Module StrFacts.

Lemma app_nil_r (s : string) : s +:+ "" = s.
Proof. induction s as [|c s IH]; simpl; [reflexivity | now rewrite IH]. Qed.

Lemma app_assoc (s1 s2 s3 : string) : (s1 +:+ s2) +:+ s3 = s1 +:+ (s2 +:+ s3).
Proof. induction s1 as [|c s1 IH]; simpl; [reflexivity | now rewrite IH]. Qed.

Lemma app_eq_nil (s1 s2 : string) : s1 +:+ s2 = "" -> s1 = "" /\ s2 = "".
Proof. destruct s1; simpl; [auto | discriminate]. Qed.

Lemma length_app (s1 s2 : string) :
  String.length (s1 +:+ s2) = String.length s1 + String.length s2.
Proof. induction s1 as [|c s1 IH]; simpl; [reflexivity | now rewrite IH]. Qed.

Lemma is_empty_true (s : string) : Str.is_empty s = true <-> s = "".
Proof. destruct s; simpl; split; intros; congruence. Qed.

Lemma is_empty_false (s : string) : Str.is_empty s = false <-> s <> "".
Proof. destruct s; simpl; split; intros; congruence. Qed.

Lemma starts_with_spec (p s : string) :
  Str.starts_with p s = true <-> exists t, s = p +:+ t.
Proof.
  revert s; induction p as [|a p IH]; intros s; simpl.
  - split; [intros _; now exists s | reflexivity].
  - destruct s as [|b s].
    + split; [discriminate | intros [t Ht]; discriminate].
    + rewrite andb_true_iff, IH. split.
      * intros [Hab [t ->]]. apply Ascii.eqb_eq in Hab as ->. now exists t.
      * intros [t Ht]. injection Ht as -> ->. split; [apply Ascii.eqb_refl | now exists t].
Qed.

Lemma starts_with_app (p t : string) : Str.starts_with p (p +:+ t) = true.
Proof. apply starts_with_spec. now exists t. Qed.

Lemma contains_spec (sub s : string) :
  Str.contains sub s = true <-> exists u v, s = u +:+ sub +:+ v.
Proof.
  induction s as [|c s IH]; simpl.
  - rewrite orb_false_r, starts_with_spec. split.
    + intros [t Ht]. now exists "", t.
    + intros [u [v H]]. symmetry in H. apply app_eq_nil in H as [-> H].
      apply app_eq_nil in H as [-> ->]. now exists "".
  - rewrite orb_true_iff, starts_with_spec, IH. split.
    + intros [[t Ht] | [u [v ->]]]; [now exists "", t | now exists (String c u), v].
    + intros [[|d u] [v H]]; simpl in H.
      * left. now exists v.
      * right. injection H as -> ->. now exists u, v.
Qed.

End StrFacts.

(** ** The matcher decides the meaning of patterns *)

Module ReFacts.
Import Re.

Lemma nullable_sound (r : regex) (bol : bool) (rest : string) :
  nullable bol rest r = true -> Matches r bol "" rest.
Proof.
  induction r as [| | | |p|r1 IH1 r2 IH2|r1 IH1 r2 IH2|r IH]; simpl; intros H;
    try discriminate.
  - constructor.
  - subst bol. constructor.
  - now constructor.
  - apply andb_true_iff in H as [H1 H2].
    change "" with ("" +:+ "") at 1. constructor.
    + simpl. auto.
    + simpl. rewrite andb_true_r. auto.
  - apply orb_true_iff in H as [H|H]; [apply MAltL | apply MAltR]; auto.
  - constructor.
Qed.

Lemma nullable_complete (r : regex) (bol : bool) (s rest : string) :
  Matches r bol s rest -> s = "" -> nullable bol rest r = true.
Proof.
  induction 1 as [ | | |p c bol rest Hp|r1 r2 bol s1 s2 rest H1 IH1 H2 IH2
                 | r1 r2 bol s rest H IH | r1 r2 bol s rest H IH
                 | | r bol s1 s2 rest H1 IH1 H2 IH2]; simpl; intros E; auto;
    try discriminate.
  - destruct (StrFacts.app_eq_nil _ _ E) as [E1 E2]. subst s1 s2. simpl in *.
    rewrite andb_true_r in IH2. rewrite IH1, IH2; auto.
  - rewrite IH; auto.
  - rewrite IH; auto using orb_true_r.
Qed.

Lemma nullable_spec (r : regex) (bol : bool) (rest : string) :
  nullable bol rest r = true <-> Matches r bol "" rest.
Proof.
  split; [apply nullable_sound | intros H; now apply (nullable_complete _ _ _ _ H)].
Qed.

Lemma deriv_sound (r : regex) (bol : bool) (c : ascii) (s rest : string) :
  Matches (deriv bol c (s +:+ rest) r) false s rest ->
  Matches r bol (String c s) rest.
Proof.
  revert s rest.
  induction r as [| | | |p|r1 IH1 r2 IH2|r1 IH1 r2 IH2|r IH]; simpl; intros s rest H;
    try (inversion H; fail).
  - destruct (p c) eqn:Hp; inversion H; subst. now constructor.
  - inversion H as [ | | | | |? ? ? ? ? H' |? ? ? ? ? H' | | ]; subst; clear H.
    + inversion H' as [ | | | |? ? ? s1 s2 ? Ha Hb | | | | ]; subst; clear H'.
      rewrite StrFacts.app_assoc in Ha. apply IH1 in Ha.
      change (String c (s1 +:+ s2)) with (String c s1 +:+ s2).
      constructor; [exact Ha |]. simpl. rewrite andb_false_r. exact Hb.
    + destruct (nullable bol (String c (s +:+ rest)) r1) eqn:Hn;
        [| inversion H'].
      apply IH2 in H'. apply nullable_sound in Hn.
      change (String c s) with ("" +:+ String c s).
      constructor; [exact Hn |]. simpl. rewrite andb_true_r. exact H'.
  - inversion H; subst; [apply MAltL | apply MAltR]; auto.
  - inversion H as [ | | | |? ? ? s1 s2 ? Ha Hb | | | | ]; subst; clear H.
    rewrite StrFacts.app_assoc in Ha. apply IH in Ha.
    change (String c (s1 +:+ s2)) with (String c s1 +:+ s2).
    constructor; [exact Ha |]. simpl. rewrite andb_false_r. exact Hb.
Qed.

Lemma deriv_complete (r : regex) (bol : bool) (s0 rest : string) :
  Matches r bol s0 rest ->
  forall c s, s0 = String c s -> Matches (deriv bol c (s +:+ rest) r) false s rest.
Proof.
  induction 1 as [ | | |p c' bol rest Hp|r1 r2 bol s1 s2 rest H1 IH1 H2 IH2
                 | r1 r2 bol s rest H IH | r1 r2 bol s rest H IH
                 | | r bol s1 s2 rest H1 IH1 H2 IH2]; intros c s0 E; simpl;
    try discriminate.
  - injection E as -> <-. rewrite Hp. constructor.
  - destruct s1 as [|c1 s1]; simpl in E.
    + subst s2. apply MAltR.
      pose proof (nullable_complete _ _ _ _ H1 eq_refl) as Hn.
      simpl in Hn. rewrite Hn. simpl in IH2. rewrite andb_true_r in IH2.
      now apply IH2.
    + injection E as -> <-. apply MAltL.
      rewrite StrFacts.app_assoc. constructor; [now apply IH1 |].
      simpl in H2. rewrite andb_false_r in H2. exact H2.
  - apply MAltL. auto.
  - apply MAltR. auto.
  - destruct s1 as [|c1 s1]; simpl in E.
    + simpl in IH2. rewrite andb_true_r in IH2. now apply IH2.
    + injection E as -> <-.
      rewrite StrFacts.app_assoc. constructor; [now apply IH1 |].
      simpl in H2. rewrite andb_false_r in H2. exact H2.
Qed.

Lemma deriv_spec (r : regex) (bol : bool) (c : ascii) (s rest : string) :
  Matches (deriv bol c (s +:+ rest) r) false s rest <->
  Matches r bol (String c s) rest.
Proof.
  split; [apply deriv_sound | intros H; now apply (deriv_complete _ _ _ _ H)].
Qed.

(** [matches_at] holds exactly when a prefix of the string is matched. *)
Theorem matches_at_spec (s : string) (r : regex) (bol : bool) :
  matches_at bol r s = true <-> exists s1 s2, s = s1 +:+ s2 /\ Matches r bol s1 s2.
Proof.
  revert r bol. induction s as [|c s IH]; intros r bol; simpl.
  - rewrite orb_false_r, nullable_spec. split.
    + intros H. now exists "", "".
    + intros [s1 [s2 [E H]]]. symmetry in E.
      apply StrFacts.app_eq_nil in E as [-> ->]. exact H.
  - rewrite orb_true_iff, nullable_spec, IH. split.
    + intros [H | [s1 [s2 [-> H]]]].
      * now exists "", (String c s).
      * exists (String c s1), s2. split; [reflexivity | now apply deriv_spec].
    + intros [[|c1 s1] [s2 [E H]]]; simpl in E.
      * left. now subst s2.
      * right. injection E as <- ->. exists s1, s2.
        split; [reflexivity | now apply deriv_spec].
Qed.

(** [re.match] succeeds exactly when the pattern matches a prefix. *)
Corollary re_match_spec (r : regex) (s : string) :
  re_match r s = true <-> exists s1 s2, s = s1 +:+ s2 /\ Matches r true s1 s2.
Proof. apply matches_at_spec. Qed.

Lemma matches_from_spec (s : string) (r : regex) (bol : bool) :
  matches_from bol r s = true <->
  exists s0 s1 s2, s = s0 +:+ s1 +:+ s2 /\ Matches r (bol && Str.is_empty s0) s1 s2.
Proof.
  revert bol. induction s as [|c s IH]; intros bol; cbn [matches_from].
  - rewrite orb_false_r, matches_at_spec. split.
    + intros [s1 [s2 [E H]]]. exists "", s1, s2. simpl. rewrite andb_true_r. auto.
    + intros [s0 [s1 [s2 [E H]]]]. symmetry in E.
      apply StrFacts.app_eq_nil in E as [-> E]. simpl in H. rewrite andb_true_r in H.
      exists s1, s2. split; [now rewrite E | exact H].
  - rewrite orb_true_iff, matches_at_spec, IH. split.
    + intros [[s1 [s2 [E H]]] | [s0 [s1 [s2 [E H]]]]].
      * exists "", s1, s2. simpl. rewrite andb_true_r. auto.
      * exists (String c s0), s1, s2. simpl. rewrite andb_false_r. subst s. auto.
    + intros [[|c0 s0] [s1 [s2 [E H]]]]; simpl in E, H.
      * left. rewrite andb_true_r in H. now exists s1, s2.
      * right. rewrite andb_false_r in H. injection E as <- ->. now exists s0, s1, s2.
Qed.

(** [re.search] succeeds exactly when the pattern matches somewhere. *)
Corollary re_search_spec (r : regex) (s : string) :
  re_search r s = true <->
  exists s0 s1 s2, s = s0 +:+ s1 +:+ s2 /\ Matches r (Str.is_empty s0) s1 s2.
Proof. apply matches_from_spec. Qed.

(** *** Inversion of [Matches] *)

Lemma Matches_Eps (bol : bool) (s rest : string) :
  Matches Eps bol s rest <-> s = "".
Proof. split; [now inversion 1 | intros ->; constructor]. Qed.

Lemma Matches_Bol (bol : bool) (s rest : string) :
  Matches Bol bol s rest <-> bol = true /\ s = "".
Proof. split; [now inversion 1 | intros [-> ->]; constructor]. Qed.

Lemma Matches_Eol (bol : bool) (s rest : string) :
  Matches Eol bol s rest <-> s = "" /\ at_eol rest = true.
Proof. split; [now inversion 1 | intros [-> H]; now constructor]. Qed.

Lemma Matches_Class (p : ascii -> bool) (bol : bool) (s rest : string) :
  Matches (Class p) bol s rest <-> exists c, s = String c "" /\ p c = true.
Proof.
  split.
  - inversion 1; subst. eauto.
  - intros [c [-> H]]. now constructor.
Qed.

Lemma Matches_Chr (c : ascii) (bol : bool) (s rest : string) :
  Matches (Chr c) bol s rest <-> s = String c "".
Proof.
  unfold Chr. rewrite Matches_Class. split.
  - intros [d [-> H]]. now apply Ascii.eqb_eq in H as ->.
  - intros ->. exists c. split; [reflexivity | apply Ascii.eqb_refl].
Qed.

Lemma Matches_Seq (r1 r2 : regex) (bol : bool) (s rest : string) :
  Matches (Seq r1 r2) bol s rest <->
  exists s1 s2, s = s1 +:+ s2 /\ Matches r1 bol s1 (s2 +:+ rest) /\
                Matches r2 (bol && Str.is_empty s1) s2 rest.
Proof.
  split.
  - inversion 1; subst. eauto.
  - intros [s1 [s2 [-> [H1 H2]]]]. now constructor.
Qed.

Lemma Matches_Alt (r1 r2 : regex) (bol : bool) (s rest : string) :
  Matches (Alt r1 r2) bol s rest <-> Matches r1 bol s rest \/ Matches r2 bol s rest.
Proof.
  split.
  - inversion 1; subst; auto.
  - intros [H|H]; [now apply MAltL | now apply MAltR].
Qed.

Lemma Matches_Opt (r : regex) (bol : bool) (s rest : string) :
  Matches (Opt r) bol s rest <-> Matches r bol s rest \/ s = "".
Proof. unfold Opt. now rewrite Matches_Alt, Matches_Eps. Qed.

Lemma Matches_Lit (l : string) (bol : bool) (s rest : string) :
  Matches (Lit l) bol s rest <-> s = l.
Proof.
  revert bol s rest. induction l as [|c l IH]; intros bol s rest; simpl.
  - apply Matches_Eps.
  - rewrite Matches_Seq. split.
    + intros [s1 [s2 [-> [H1 H2]]]]. apply Matches_Chr in H1 as ->.
      apply IH in H2 as ->. reflexivity.
    + intros ->. exists (String c ""), l. split; [reflexivity |].
      split; [now apply Matches_Chr | now apply IH].
Qed.

Lemma Matches_Star_Class_all (p : ascii -> bool) (r : regex) (bol : bool) (s rest : string) :
  Matches r bol s rest -> r = Star (Class p) -> Str.all p s = true.
Proof.
  induction 1 as [ | | | | | | | | r bol s1 s2 rest H1 IH1 H2 IH2]; intros E;
    try discriminate; [reflexivity |].
  injection E as ->. apply Matches_Class in H1 as [c [-> Hc]]. simpl.
  rewrite Hc. simpl. now apply IH2.
Qed.

Lemma Matches_Star_Class (p : ascii -> bool) (bol : bool) (s rest : string) :
  Matches (Star (Class p)) bol s rest <-> Str.all p s = true.
Proof.
  split; [intros H; now apply (Matches_Star_Class_all p _ _ _ _ H) |].
  revert bol. induction s as [|c s IH]; intros bol; simpl; intros H.
  - constructor.
  - apply andb_true_iff in H as [Hc Hs].
    change (String c s) with (String c "" +:+ s). constructor.
    + now constructor.
    + now apply IH.
Qed.

Lemma Matches_Plus_Class (p : ascii -> bool) (bol : bool) (s rest : string) :
  Matches (Plus (Class p)) bol s rest <-> s <> "" /\ Str.all p s = true.
Proof.
  unfold Plus. rewrite Matches_Seq. split.
  - intros [s1 [s2 [-> [H1 H2]]]]. apply Matches_Class in H1 as [c [-> Hc]].
    apply Matches_Star_Class in H2. simpl. rewrite Hc, H2. split; [discriminate | reflexivity].
  - intros [Hne H]. destruct s as [|c s]; [congruence |]. simpl in H.
    apply andb_true_iff in H as [Hc Hs]. exists (String c ""), s.
    split; [reflexivity |]. split; [now apply Matches_Class; eauto |].
    now apply Matches_Star_Class.
Qed.

End ReFacts.


(** ** What the three patterns accept *)

Module Patterns.
Import Re ReFacts.

Lemma at_eol_spec (rest : string) :
  at_eol rest = true <-> rest = "" \/ rest = String "010" "".
Proof.
  destruct rest as [|c [|d rest]]; simpl.
  - split; auto.
  - rewrite Ascii.eqb_eq. split.
    + intros ->. auto.
    + intros [H|H]; [discriminate | now injection H].
  - split; [discriminate | intros [H|H]; discriminate].
Qed.

Lemma all_app (p : ascii -> bool) (s1 s2 : string) :
  Str.all p (s1 +:+ s2) = Str.all p s1 && Str.all p s2.
Proof.
  induction s1 as [|c s1 IH]; simpl; [reflexivity |].
  now rewrite IH, andb_assoc.
Qed.

(** [url_pattern] accepts exactly the strings [http://...] and
    [https://...] whose first character after [://] is not a newline. *)
Theorem url_pattern_spec (url : string) :
  re_match url_pattern url = true <->
  exists (scheme : string) (c : ascii) (rest : string),
    (scheme = "http" \/ scheme = "https") /\ c <> "010"%char /\
    url = scheme +:+ "://" +:+ String c rest.
Proof.
  rewrite re_match_spec. unfold url_pattern, Group. split.
  - intros [s1 [s2 [-> H]]].
    apply Matches_Seq in H as [a [b [-> [Ha H]]]].
    apply Matches_Bol in Ha as [_ ->].
    apply Matches_Seq in H as [b1 [b2 [-> [H1 H2]]]].
    apply Matches_Seq in H1 as [h1 [h2 [-> [Hh1 Hh2]]]].
    apply Matches_Lit in Hh1 as ->.
    apply Matches_Seq in H2 as [l [d [-> [Hl Hd]]]].
    apply Matches_Lit in Hl as ->.
    apply Matches_Plus_Class in Hd as [Hne Hd].
    destruct d as [|c d]; [congruence |]. simpl in Hd.
    apply andb_true_iff in Hd as [Hc _]. apply negb_true_iff in Hc.
    apply Ascii.eqb_neq in Hc.
    apply Matches_Opt in Hh2 as [Hs | ->].
    + apply Matches_Chr in Hs as ->. exists "https", c, (d +:+ s2).
      split; [auto |]. split; [exact Hc | reflexivity].
    + exists "http", c, (d +:+ s2).
      split; [auto |]. split; [exact Hc | reflexivity].
  - intros [scheme [c [rest [Hs [Hc ->]]]]].
    exists (scheme +:+ "://" +:+ String c ""), rest. split.
    { rewrite !StrFacts.app_assoc. reflexivity. }
    apply Matches_Seq. exists "", (scheme +:+ "://" +:+ String c "").
    split; [reflexivity |]. split; [now apply Matches_Bol |].
    apply Matches_Seq. exists scheme, ("://" +:+ String c "").
    split; [reflexivity |]. split.
    + apply Matches_Seq. destruct Hs as [-> | ->].
      * exists "http", "". split; [reflexivity |].
        split; [now apply Matches_Lit | apply Matches_Opt; auto].
      * exists "http", "s". split; [reflexivity |].
        split; [now apply Matches_Lit | apply Matches_Opt; left; now apply Matches_Chr].
    + apply Matches_Seq. exists "://", (String c "").
      split; [reflexivity |]. split; [now apply Matches_Lit |].
      apply Matches_Plus_Class. split; [discriminate |]. simpl.
      apply Ascii.eqb_neq in Hc. now rewrite Hc.
Qed.

(** [platform_pattern] is found exactly in the strings that contain
    [supabase.co] or [supabase.in]. *)
Theorem platform_pattern_spec (url : string) :
  re_search platform_pattern url =
  Str.contains "supabase.co" url || Str.contains "supabase.in" url.
Proof.
  apply eq_true_iff_eq.
  rewrite re_search_spec, orb_true_iff, !StrFacts.contains_spec.
  unfold platform_pattern, Group. split.
  - intros [s0 [s1 [s2 [-> H]]]]. apply Matches_Alt in H as [H|H];
      apply Matches_Lit in H as ->; [left | right]; now exists s0, s2.
  - intros [[u [v ->]] | [u [v ->]]]; exists u; eexists; exists v;
      (split; [reflexivity |]); apply Matches_Alt; [left | right]; now apply Matches_Lit.
Qed.

(** [key_pattern] accepts exactly: a non-empty run of [jwt_char], a dot, a
    second non-empty run of [jwt_char], any run of [jwt_tail_char] (which
    may be empty and may contain dots), and possibly one final newline. *)
Theorem key_pattern_spec (key : string) :
  re_match key_pattern key = true <->
  exists a b t nl : string,
    key = a +:+ "." +:+ b +:+ t +:+ nl /\
    a <> "" /\ Str.all jwt_char a = true /\
    b <> "" /\ Str.all jwt_char b = true /\
    Str.all jwt_tail_char t = true /\
    (nl = "" \/ nl = String "010" "").
Proof.
  rewrite re_match_spec. unfold key_pattern. split.
  - intros [s1 [s2 [-> H]]].
    apply Matches_Seq in H as [x [y [-> [Hx H]]]].
    apply Matches_Bol in Hx as [_ ->].
    apply Matches_Seq in H as [a [y1 [-> [Ha H]]]].
    apply Matches_Plus_Class in Ha as [Hane Ha].
    apply Matches_Seq in H as [d [y2 [-> [Hd H]]]].
    apply Matches_Chr in Hd as ->.
    apply Matches_Seq in H as [b [y3 [-> [Hb H]]]].
    apply Matches_Plus_Class in Hb as [Hbne Hb].
    apply Matches_Seq in H as [o [y4 [-> [Ho H]]]].
    apply Matches_Seq in H as [t [e [-> [Ht He]]]].
    apply Matches_Star_Class in Ht.
    apply Matches_Eol in He as [-> He]. apply at_eol_spec in He.
    exists a, b, (o +:+ t), s2. repeat split; auto.
    + rewrite StrFacts.app_nil_r.
      repeat (rewrite ?StrFacts.app_assoc; simpl). reflexivity.
    + rewrite all_app, Ht, andb_true_r.
      apply Matches_Opt in Ho as [Ho | ->]; [| reflexivity].
      now apply Matches_Chr in Ho as ->.
  - intros [a [b [t [nl [-> [Hane [Ha [Hbne [Hb [Ht Hnl]]]]]]]]]].
    exists (a +:+ "." +:+ b +:+ t), nl. split.
    { rewrite !StrFacts.app_assoc. reflexivity. }
    apply Matches_Seq. exists "", (a +:+ "." +:+ b +:+ t).
    split; [reflexivity |]. split; [now apply Matches_Bol |].
    apply Matches_Seq. exists a, ("." +:+ b +:+ t).
    split; [reflexivity |]. split; [now apply Matches_Plus_Class |].
    apply Matches_Seq. exists ".", (b +:+ t).
    split; [reflexivity |]. split; [now apply Matches_Chr |].
    apply Matches_Seq. exists b, t.
    split; [reflexivity |]. split; [now apply Matches_Plus_Class |].
    apply Matches_Seq. exists "", t.
    split; [reflexivity |]. split; [apply Matches_Opt; auto |].
    apply Matches_Seq. exists t, "".
    split; [now rewrite StrFacts.app_nil_r |].
    split; [now apply Matches_Star_Class |].
    apply Matches_Eol. split; [reflexivity |]. now apply at_eol_spec.
Qed.

End Patterns.

(** ** The built-ins *)

Module PyFacts.

Lemma split_cons (sep c : ascii) (s : string) :
  Py.split sep (String c s) =
  if Ascii.eqb c sep then "" :: Py.split sep s
  else match Py.split sep s with
       | piece :: pieces => String c piece :: pieces
       | [] => [String c ""]
       end.
Proof. reflexivity. Qed.

Lemma split_not_nil (sep : ascii) (s : string) : Py.split sep s <> [].
Proof.
  induction s as [|c s IH]; [discriminate |]. rewrite split_cons.
  destruct (Ascii.eqb c sep); [discriminate |].
  destruct (Py.split sep s); [congruence | discriminate].
Qed.

(** The pieces, joined by the separator, give the string back. *)
Lemma join_split (sep : ascii) (s : string) : Py.join sep (Py.split sep s) = s.
Proof.
  induction s as [|c s IH]; [reflexivity |]. rewrite split_cons.
  pose proof (split_not_nil sep s) as Hne.
  destruct (Ascii.eqb_spec c sep) as [-> | Hc].
  - destruct (Py.split sep s) as [|p ps]; [congruence |].
    change (Py.join sep ("" :: p :: ps)) with (String sep (Py.join sep (p :: ps))).
    now rewrite IH.
  - destruct (Py.split sep s) as [|p ps]; [congruence |].
    destruct ps as [|q ps]; simpl in *; now rewrite <- IH.
Qed.

(** No piece contains the separator. *)
Lemma split_pieces (sep : ascii) (s : string) :
  Forall (fun piece => Str.all (fun c => negb (Ascii.eqb c sep)) piece = true)
         (Py.split sep s).
Proof.
  induction s as [|c s IH]; [repeat constructor |]. rewrite split_cons.
  destruct (Ascii.eqb c sep) eqn:Hc; [now constructor |].
  destruct (Py.split sep s) as [|p ps]; [repeat constructor; simpl; now rewrite Hc |].
  inversion IH; subst. constructor; [| assumption]. simpl. now rewrite Hc.
Qed.

(** There is one piece more than there are separators. *)
Lemma split_length_app (sep : ascii) (s1 s2 : string) :
  length (Py.split sep (s1 +:+ String sep s2)) =
  length (Py.split sep s1) + length (Py.split sep s2).
Proof.
  induction s1 as [|c s1 IH].
  - simpl. now rewrite Ascii.eqb_refl.
  - change (String c s1 +:+ String sep s2) with (String c (s1 +:+ String sep s2)).
    rewrite !split_cons.
    pose proof (split_not_nil sep s1) as Hne1.
    pose proof (split_not_nil sep (s1 +:+ String sep s2)) as Hne2.
    destruct (Ascii.eqb c sep); simpl; [now rewrite IH |].
    destruct (Py.split sep s1) as [|p ps], (Py.split sep (s1 +:+ String sep s2)) as [|q qs];
      try congruence. simpl in *. exact IH.
Qed.

Lemma split_length_pos (sep : ascii) (s : string) : 1 <= length (Py.split sep s).
Proof.
  pose proof (split_not_nil sep s). destruct (Py.split sep s); [congruence | simpl; lia].
Qed.

(** *** [replace] *)

Lemma replace_from_skip (old new u s : string) :
  Py.replace_from old new (String.length u) (u +:+ s) = Py.replace_from old new 0 s.
Proof.
  induction u as [|c u IH]; simpl; [reflexivity | exact IH].
Qed.

Lemma replace_from_hit (old new s : string) :
  old <> "" ->
  Py.replace_from old new 0 (old +:+ s) = new +:+ Py.replace_from old new 0 s.
Proof.
  intros Hne. destruct old as [|c old]; [congruence |].
  change (String c old +:+ s) with (String c (old +:+ s)).
  cbn [Py.replace_from].
  change (String c (old +:+ s)) with (String c old +:+ s).
  rewrite StrFacts.starts_with_app. simpl String.length.
  replace (S (String.length old) - 1) with (String.length old) by lia.
  now rewrite replace_from_skip.
Qed.

Lemma replace_from_miss (old new : string) (c : ascii) (s : string) :
  Str.starts_with old (String c s) = false ->
  Py.replace_from old new 0 (String c s) = String c (Py.replace_from old new 0 s).
Proof. intros H. cbn [Py.replace_from]. now rewrite H. Qed.

(** The function computes the documented result, and that result is
    unique. *)
Theorem replace_spec (old new s t : string) :
  old <> "" -> (Py.Replaced old new s t <-> Py.replace old new s = t).
Proof.
  intros Hne. unfold Py.replace.
  destruct (Str.is_empty old) eqn:He; [apply StrFacts.is_empty_true in He; congruence |].
  split.
  - induction 1 as [|s t H IH|c s t Hc H IH].
    + reflexivity.
    + rewrite replace_from_hit by assumption. now rewrite IH.
    + rewrite replace_from_miss by assumption. now rewrite IH.
  - intros <-. remember (String.length s) as n eqn:Hn.
    revert s Hn. induction n as [n IH] using lt_wf_ind. intros s Hn.
    destruct s as [|c s]; [constructor |].
    destruct (Str.starts_with old (String c s)) eqn:Hs.
    + apply StrFacts.starts_with_spec in Hs as [u Hu]. rewrite Hu.
      rewrite replace_from_hit by assumption. constructor.
      apply (IH (String.length u)); [| reflexivity].
      rewrite Hn, Hu, StrFacts.length_app.
      destruct old; [congruence | simpl; lia].
    + rewrite replace_from_miss by assumption. constructor; [assumption |].
      apply (IH (String.length s)); [| reflexivity]. rewrite Hn. simpl. lia.
Qed.

(** A prefix free of [w] that shows after replacing [http] by [ws] was
    there before. *)
Lemma replaced_prefix (s t : string) :
  Py.Replaced "http" "ws" s t ->
  forall q, Str.all (fun c => negb (Ascii.eqb c "w")) q = true ->
            Str.starts_with q t = true -> Str.starts_with q s = true.
Proof.
  induction 1 as [|s t H IH|c s t Hc H IH]; intros q Hq Hqt.
  - exact Hqt.
  - destruct q as [|d q]; [reflexivity |]. simpl in Hq, Hqt.
    apply andb_true_iff in Hq as [Hd _]. apply andb_true_iff in Hqt as [Hd' _].
    now rewrite Hd' in Hd.
  - destruct q as [|d q]; [reflexivity |]. simpl in Hq, Hqt |- *.
    apply andb_true_iff in Hq as [_ Hq]. apply andb_true_iff in Hqt as [-> Hqt].
    simpl. now apply IH.
Qed.

(** After replacing [http] by [ws] no [http] is left. *)
Theorem replaced_no_http (s t : string) :
  Py.Replaced "http" "ws" s t -> Str.contains "http" t = false.
Proof.
  induction 1 as [|s t H IH|c s t Hc H IH].
  - reflexivity.
  - simpl String.append. cbn [Str.contains]. rewrite IH. reflexivity.
  - cbn [Str.contains]. rewrite IH, orb_false_r.
    destruct (Str.starts_with "http" (String c t)) eqn:Ht; [| reflexivity].
    rewrite <- Hc. symmetry.
    apply (replaced_prefix _ _ (Py.Replaced_miss _ _ _ _ _ Hc H)); [reflexivity | exact Ht].
Qed.

End PyFacts.

(** ** Running method bodies step by step *)

Section Stepping.
Context `{B : Backend}.

Lemma wp_bind {A C : Type} (m : M A) (k : A -> M C) Q self w :
  wp m (fun r self' w' =>
          match r with
          | Return a => wp (k a) Q self' w'
          | Raise e => Q (Raise e) self' w'
          end) self w ->
  wp (m ≫= k) Q self w.
Proof.
  unfold wp, result_of, self_of, world_of, mbind, M_bind, bind.
  destruct (m self w) as [[[a|e] self'] w']; simpl; auto.
Qed.

Lemma wp_ret {A : Type} (a : A) (Q : outcome A -> Client.t -> World -> Prop) self w :
  Q (Return a) self w -> wp (mret a) Q self w.
Proof. auto. Qed.

Lemma wp_raise {A : Type} (e : exn) (Q : outcome A -> Client.t -> World -> Prop) self w :
  Q (Raise e) self w -> wp (raise e) Q self w.
Proof. auto. Qed.

Lemma wp_setattr {A : Type} (set : A -> Client.t -> Client.t) (v : A) Q self w :
  Q (Return tt) (set v self) w -> wp (setattr set v) Q self w.
Proof. auto. Qed.

Lemma wp_getattr {A : Type} (name : string) (field : Client.t -> option A) Q self w :
  match field self with
  | Some v => Q (Return v) self w
  | None => Q (Raise (AttributeError name)) self w
  end ->
  wp (getattr name field) Q self w.
Proof.
  unfold wp, getattr, result_of, self_of, world_of.
  destruct (field self); simpl; auto.
Qed.

Lemma wp_call {A : Type} (c : Call)
    (f : Store ExtState -> (ExtError + A) * Store ExtState) Q self w :
  (forall r st, f (store w) = (r, st) ->
     let w' := {| store := st; calls := calls w ++ [c] |} in
     match r with
     | inr a => Q (Return a) self w'
     | inl e => Q (Raise (SubClientError e)) self w'
     end) ->
  wp (call c f) Q self w.
Proof.
  intros H. unfold wp, call, result_of, self_of, world_of.
  specialize (H (f (store w)).1 (f (store w)).2).
  destruct (f (store w)) as [[e|a] st]; simpl in *; auto.
Qed.

Lemma wp_dict_update (l : loc) (other : dict) Q self w :
  Q (Return tt) self
    {| store := {| dicts := alter (fun d => other ∪ d) l (dicts (store w));
                   ext := ext (store w) |};
       calls := calls w |} ->
  wp (dict_update l other) Q self w.
Proof. auto. Qed.

Lemma wp_subscript {A : Type} (l : list A) (i : nat) Q self w :
  match l !! i with
  | Some v => Q (Return v) self w
  | None => Q (Raise IndexError) self w
  end ->
  wp (subscript l i) Q self w.
Proof.
  unfold wp, subscript, Py.index, result_of, self_of, world_of.
  destruct (l !! i); simpl; auto.
Qed.

Lemma wp_elim {A : Type} (m : M A) (Q : outcome A -> Client.t -> World -> Prop) self w
    r self' w' :
  wp m Q self w -> m self w = (r, self', w') -> Q r self' w'.
Proof. unfold wp. intros H E. now rewrite E in H. Qed.

End Stepping.

(** One step of a method body. Attribute reads and writes on a known
    object are computed; a call into a sub-client is split into its two
    outcomes. *)
Ltac wp_attrs :=
  cbv beta iota;
  cbn [Client.supabase_url Client.supabase_key Client.rest_url Client.realtime_url
       Client.auth_url Client.storage_url Client.functions_url Client.schema
       Client.auth Client.realtime Client.postgrest Client.storage
       Client.set_supabase_url Client.set_supabase_key Client.set_rest_url
       Client.set_realtime_url Client.set_auth_url Client.set_storage_url
       Client.set_functions_url Client.set_schema Client.set_auth
       Client.set_realtime Client.set_postgrest Client.set_storage
       Client.blank store calls negb lookup list_lookup].

Ltac wp_step :=
  lazymatch goal with
  | |- wp (mbind _ _) _ _ _ => apply wp_bind
  | |- wp (mret _) _ _ _ => apply wp_ret
  | |- wp (raise _) _ _ _ => apply wp_raise
  | |- wp (setattr _ _) _ _ _ => apply wp_setattr
  | |- wp (getattr _ _) _ _ _ => apply wp_getattr
  | |- wp (call _ _) _ _ _ => apply wp_call; cbn [store calls]; intros [?|?] ? ?
  | |- wp (dict_update _ _) _ _ _ => apply wp_dict_update
  | |- wp (subscript _ _) _ _ _ => apply wp_subscript
  | |- wp (if ?b then _ else _) _ _ _ => destruct b eqn:?
  | |- wp (match ?o with Some _ => _ | None => _ end) _ _ _ => destruct o
  | |- wp _init_supabase_auth_client _ _ _ => unfold _init_supabase_auth_client
  | |- wp (_init_supabase_auth_client _ _) _ _ _ => unfold _init_supabase_auth_client
  | |- wp (_init_postgrest_client _ _ _ _ _) _ _ _ => unfold _init_postgrest_client
  | |- wp (_init_storage_client _ _ _) _ _ _ => unfold _init_storage_client
  | |- wp _get_auth_headers _ _ _ => unfold _get_auth_headers
  | |- wp (let _ := _ in _) _ _ _ => cbv zeta
  end; wp_attrs;
  try lazymatch goal with
      | |- match ?x with Some _ => _ | None => _ end => destruct x eqn:?; wp_attrs
      end.

Ltac wp_run := wp_attrs; repeat wp_step.

(** ** [Client.__init__] *)

Section InitFacts.
Context `{B : Backend}.

Lemma accepted_true (url key : string) :
  accepted url key = true <->
  Py.truthy url = true /\ Py.truthy key = true /\
  Re.re_match url_pattern url = true /\ Re.re_match key_pattern key = true.
Proof. unfold accepted. rewrite !andb_true_iff. tauto. Qed.

Lemma truthy_false (s : string) : Py.truthy s = false <-> s = "".
Proof. unfold Py.truthy. rewrite negb_false_iff. apply StrFacts.is_empty_true. Qed.

Lemma truthy_true (s : string) : Py.truthy s = true <-> s <> "".
Proof. unfold Py.truthy. rewrite negb_true_iff. apply StrFacts.is_empty_false. Qed.

(** A failed guard raises [SupabaseException] and touches nothing. *)
Lemma Client_init_rejected url key opts self w :
  accepted url key = false ->
  exists msg, Client_init url key opts self w = (Raise (SupabaseException msg), self, w).
Proof.
  unfold accepted, Client_init. intros H.
  destruct (Py.truthy url); [| eexists; reflexivity].
  destruct (Py.truthy key); [| eexists; reflexivity].
  destruct (Re.re_match url_pattern url); [| eexists; reflexivity].
  destruct (Re.re_match key_pattern key); [discriminate | eexists; reflexivity].
Qed.

(** The key guard is the last one. *)
Lemma Client_init_rejected_key url key opts self w :
  Py.truthy url = true -> Py.truthy key = true ->
  Re.re_match url_pattern url = true -> Re.re_match key_pattern key = false ->
  Client_init url key opts self w = (Raise (SupabaseException "Invalid API key"), self, w).
Proof. unfold Client_init. intros -> -> -> ->. reflexivity. Qed.

(** Once the guards have passed, the attributes below are assigned and
    stay as they are whatever happens next in [__init__]. *)
Lemma Client_init_endpoints url key opts w :
  accepted url key = true ->
  wp (Client_init url key opts)
     (fun _ self _ =>
        Client.supabase_url self = Some url /\
        Client.supabase_key self = Some key /\
        Client.rest_url self = Some (url +:+ "/rest/v1") /\
        Client.realtime_url self = Some (Py.replace "http" "ws" (url +:+ "/realtime/v1")) /\
        Client.auth_url self = Some (url +:+ "/auth/v1") /\
        Client.storage_url self = Some (url +:+ "/storage/v1") /\
        Client.functions_url self =
          if Re.re_search platform_pattern url then
            match Py.split "." url with
            | p0 :: p1 :: p2 :: _ => Some (p0 +:+ ".functions." +:+ p1 +:+ "." +:+ p2)
            | _ => None
            end
          else Some (url +:+ "/functions/v1"))
     Client.blank w.
Proof.
  intros H. apply accepted_true in H as [H1 [H2 [H3 H4]]].
  unfold Client_init. rewrite H1, H2, H3, H4.
  do 12 wp_step.
  destruct (Re.re_search platform_pattern url);
    [destruct (Py.split "." url) as [|p0 [|p1 [|p2 ps]]] |].
  all: wp_run.
  all: repeat split; reflexivity.
Qed.

(** When [__init__] returns, every attribute has been assigned. *)
Lemma Client_init_constructs url key opts w :
  accepted url key = true ->
  wp (Client_init url key opts)
     (fun r self _ =>
        r = Return tt ->
        exists f a p s,
          self = {| Client.supabase_url := Some url;
                    Client.supabase_key := Some key;
                    Client.rest_url := Some (url +:+ "/rest/v1");
                    Client.realtime_url :=
                      Some (Py.replace "http" "ws" (url +:+ "/realtime/v1"));
                    Client.auth_url := Some (url +:+ "/auth/v1");
                    Client.storage_url := Some (url +:+ "/storage/v1");
                    Client.functions_url := Some f;
                    Client.schema := Some (ClientOptions.schema opts);
                    Client.auth := Some a;
                    Client.realtime := Some tt;
                    Client.postgrest := Some p;
                    Client.storage := Some s |})
     Client.blank w.
Proof.
  intros H. apply accepted_true in H as [H1 [H2 [H3 H4]]].
  unfold Client_init. rewrite H1, H2, H3, H4.
  do 12 wp_step.
  destruct (Re.re_search platform_pattern url);
    [destruct (Py.split "." url) as [|p0 [|p1 [|p2 ps]]] |].
  all: wp_run.
  all: intros E; try discriminate E.
  all: do 4 eexists; reflexivity.
Qed.

(** With fewer than three pieces the subscript raises before any call. *)
Lemma Client_init_index_error url key opts w :
  accepted url key = true ->
  Re.re_search platform_pattern url = true ->
  length (Py.split "." url) < 3 ->
  wp (Client_init url key opts)
     (fun r _ w' => r = Raise IndexError /\ w' = w)
     Client.blank w.
Proof.
  intros H Hp Hlen. apply accepted_true in H as [H1 [H2 [H3 H4]]].
  unfold Client_init. rewrite H1, H2, H3, H4, Hp.
  do 12 wp_step.
  destruct (Py.split "." url) as [|p0 [|p1 [|p2 ps]]]; simpl in Hlen; try lia.
  all: wp_run; split; reflexivity.
Qed.

Lemma create_client_unfold url key opts w :
  create_client url key opts w =
  match result_of (Client_init url key opts Client.blank w) with
  | Return _ => (Return (self_of (Client_init url key opts Client.blank w)),
                 world_of (Client_init url key opts Client.blank w))
  | Raise e => (Raise e, world_of (Client_init url key opts Client.blank w))
  end.
Proof.
  unfold create_client, Client_new, result_of, self_of, world_of.
  destruct (Client_init url key opts Client.blank w) as [[[[]|e] self] w']; reflexivity.
Qed.

(** A client that [create_client] returned is the object [__init__] left,
    and [__init__] returned on it. *)
Lemma create_client_returned url key opts w c w' :
  create_client url key opts w = (Return c, w') ->
  accepted url key = true /\
  Client_init url key opts Client.blank w = (Return tt, c, w').
Proof.
  intros E. destruct (accepted url key) eqn:Ha.
  - split; [reflexivity |]. rewrite create_client_unfold in E.
    unfold result_of, self_of, world_of in E.
    destruct (Client_init url key opts Client.blank w) as [[[[]|e] self] w'']; simpl in E;
      [now injection E as -> -> | discriminate].
  - destruct (Client_init_rejected url key opts Client.blank w Ha) as [msg Hm].
    unfold create_client, Client_new in E. rewrite Hm in E. discriminate.
Qed.

Lemma create_client_initialised url key opts w c w' :
  create_client url key opts w = (Return c, w') -> c = initialised url key opts w.
Proof.
  intros E. apply create_client_returned in E as [_ E].
  unfold initialised, self_of. now rewrite E.
Qed.

Lemma url_pattern_nonempty (url : string) :
  Re.re_match url_pattern url = true -> Py.truthy url = true.
Proof. destruct url; [vm_compute; discriminate | reflexivity]. Qed.

(** The attributes of a client that [create_client] returned. *)
Lemma create_client_attributes url key opts w c w' :
  create_client url key opts w = (Return c, w') ->
  exists f a p s,
    c = {| Client.supabase_url := Some url;
           Client.supabase_key := Some key;
           Client.rest_url := Some (url +:+ "/rest/v1");
           Client.realtime_url := Some (Py.replace "http" "ws" (url +:+ "/realtime/v1"));
           Client.auth_url := Some (url +:+ "/auth/v1");
           Client.storage_url := Some (url +:+ "/storage/v1");
           Client.functions_url := Some f;
           Client.schema := Some (ClientOptions.schema opts);
           Client.auth := Some a;
           Client.realtime := Some tt;
           Client.postgrest := Some p;
           Client.storage := Some s |}.
Proof.
  intros E. apply create_client_returned in E as [Ha E].
  exact (wp_elim _ _ _ _ _ _ _ (Client_init_constructs url key opts w Ha) E eq_refl).
Qed.

(** The calls of an [__init__] that returns, in order: the auth sub-client
    is built on the auth endpoint and asked for the session twice, the
    postgrest sub-client is built on the REST endpoint and authenticated,
    and, after a third look at the session, the storage sub-client is built
    on the storage endpoint. *)
Lemma Client_init_calls url key opts w :
  accepted url key = true ->
  wp (Client_init url key opts)
     (fun r self w' =>
        r = Return tt ->
        exists a p token headers,
          Client.auth self = Some a /\ Client.postgrest self = Some p /\
          calls w' = calls w ++
            [CallNewAuth (url +:+ "/auth/v1") (ClientOptions.auto_refresh_token opts)
               (ClientOptions.persist_session opts) (ClientOptions.storage opts)
               (ClientOptions.headers opts);
             CallGetSession a;
             CallGetSession a;
             CallNewPostgrest (url +:+ "/rest/v1") (ClientOptions.headers opts)
               (ClientOptions.schema opts) (ClientOptions.postgrest_client_timeout opts);
             CallPostgrestAuth p token;
             CallGetSession a;
             CallNewStorage (url +:+ "/storage/v1") headers
               (ClientOptions.storage_client_timeout opts)])
     Client.blank w.
Proof.
  intros H. apply accepted_true in H as [H1 [H2 [H3 H4]]].
  unfold Client_init. rewrite H1, H2, H3, H4.
  do 12 wp_step.
  destruct (Re.re_search platform_pattern url);
    [destruct (Py.split "." url) as [|p0 [|p1 [|p2 ps]]] |].
  all: wp_run.
  all: intros E; try discriminate E.
  all: do 4 eexists; split; [reflexivity |]; split; [reflexivity |].
  all: rewrite <- !app_assoc; reflexivity.
Qed.

Lemma create_client_calls url key opts w c w' :
  create_client url key opts w = (Return c, w') ->
  exists a p token headers,
    Client.auth c = Some a /\ Client.postgrest c = Some p /\
    calls w' = calls w ++
      [CallNewAuth (url +:+ "/auth/v1") (ClientOptions.auto_refresh_token opts)
         (ClientOptions.persist_session opts) (ClientOptions.storage opts)
         (ClientOptions.headers opts);
       CallGetSession a;
       CallGetSession a;
       CallNewPostgrest (url +:+ "/rest/v1") (ClientOptions.headers opts)
         (ClientOptions.schema opts) (ClientOptions.postgrest_client_timeout opts);
       CallPostgrestAuth p token;
       CallGetSession a;
       CallNewStorage (url +:+ "/storage/v1") headers
         (ClientOptions.storage_client_timeout opts)].
Proof.
  intros E. apply create_client_returned in E as [Ha E].
  exact (wp_elim _ _ _ _ _ _ _ (Client_init_calls url key opts w Ha) E eq_refl).
Qed.

End InitFacts.

(** ** The methods *)

Section MethodFacts.
Context `{B : Backend}.

(** What [_get_auth_headers] returns on an object whose [auth] and
    [supabase_key] are assigned. *)
Lemma get_auth_headers_run self w a key :
  Client.auth self = Some a ->
  Client.supabase_key self = Some key ->
  _get_auth_headers self w =
  let w' st := {| store := st; calls := calls w ++ [CallGetSession a] |} in
  match auth_get_session a (store w) with
  | (inr data, st) =>
      (Return (<["Authorization" := "Bearer " +:+ Py.format (access_token <$> data)]>
                 (<["apiKey" := key]> (∅ : dict))),
       self, w' st)
  | (inl e, st) => (Raise (SubClientError e), self, w' st)
  end.
Proof.
  intros Ha Hk.
  unfold _get_auth_headers, mbind, M_bind, bind, getattr, call, mret, M_ret, ret.
  rewrite Ha. destruct (auth_get_session a (store w)) as [[e|[d|]] st]; cbn [store calls];
    rewrite ?Hk; reflexivity.
Qed.

Lemma set_session_run self w a p access refresh :
  Client.auth self = Some a ->
  Client.postgrest self = Some p ->
  set_session access refresh self w =
  match auth_set_session a access refresh (store w) with
  | (inr response, st1) =>
      match postgrest_auth p access st1 with
      | (inr _, st2) =>
          (Return response, self,
           {| store := st2;
              calls := calls w ++ [CallSetSession a access refresh; CallPostgrestAuth p access] |})
      | (inl e, st2) =>
          (Raise (SubClientError e), self,
           {| store := st2;
              calls := calls w ++ [CallSetSession a access refresh; CallPostgrestAuth p access] |})
      end
  | (inl e, st1) =>
      (Raise (SubClientError e), self,
       {| store := st1; calls := calls w ++ [CallSetSession a access refresh] |})
  end.
Proof.
  intros Ha Hp.
  unfold set_session, mbind, M_bind, bind, getattr, call, mret, M_ret, ret.
  rewrite Ha. destruct (auth_set_session a access refresh (store w)) as [[e|r] st1];
    cbn [store calls]; [reflexivity |].
  rewrite Hp. cbn [store calls].
  destruct (postgrest_auth p access st1) as [[e|[]] st2]; cbn [store calls];
    rewrite <- app_assoc; reflexivity.
Qed.

Lemma from__run self w p name :
  Client.postgrest self = Some p ->
  from_ name self w =
  match postgrest_from p name (store w) with
  | (inr builder, st) =>
      (Return builder, self,
       {| store := st; calls := calls w ++ [CallPostgrestFrom p name] |})
  | (inl e, st) =>
      (Raise (SubClientError e), self,
       {| store := st; calls := calls w ++ [CallPostgrestFrom p name] |})
  end.
Proof.
  intros Hp. unfold from_, mbind, M_bind, bind, getattr, call.
  rewrite Hp. destruct (postgrest_from p name (store w)) as [[e|b] st]; reflexivity.
Qed.

(** No method assigns an attribute. *)
Lemma set_session_self access refresh self w :
  self_of (set_session access refresh self w) = self.
Proof.
  change (wp (set_session access refresh) (fun _ self' _ => self' = self) self w).
  unfold set_session. wp_run; reflexivity.
Qed.

Lemma functions_self self w : self_of (functions self w) = self.
Proof.
  change (wp functions (fun _ self' _ => self' = self) self w).
  unfold functions. wp_run; reflexivity.
Qed.

Lemma from__self name self w : self_of (from_ name self w) = self.
Proof.
  change (wp (from_ name) (fun _ self' _ => self' = self) self w).
  unfold from_. wp_run; reflexivity.
Qed.

Lemma rpc_self fn params self w : self_of (rpc fn params self w) = self.
Proof.
  change (wp (rpc fn params) (fun _ self' _ => self' = self) self w).
  unfold rpc. wp_run; reflexivity.
Qed.

Lemma run_operation_self op self w : (run_operation op self w).1 = self.
Proof.
  destruct op; simpl.
  - apply set_session_self.
  - apply functions_self.
  - apply from__self.
  - apply from__self.
  - apply rpc_self.
Qed.

Lemma run_operations_self ops self w : (run_operations ops self w).1 = self.
Proof.
  revert self w. induction ops as [|op ops IH]; intros self w; simpl; [reflexivity |].
  pose proof (run_operation_self op self w) as H.
  destruct (run_operation op self w) as [self' w']. simpl in H. subst self'. apply IH.
Qed.

End MethodFacts.

(** ** The running examples *)

Example url_pattern_examples :
  Re.re_match url_pattern "https://xyz.supabase.co" = true /\
  Re.re_match url_pattern "http://localhost:54321" = true /\
  Re.re_match url_pattern "https://" = false /\
  Re.re_match url_pattern "ftp://example.com" = false /\
  Re.re_match url_pattern " https://example.com" = false.
Proof. repeat split; reflexivity. Qed.

Example key_pattern_examples :
  Re.re_match key_pattern "aaa.bbb.ccc" = true /\
  Re.re_match key_pattern "aaa.bbb" = true /\
  Re.re_match key_pattern "aaa.bbb." = true /\
  Re.re_match key_pattern "aaa" = false /\
  Re.re_match key_pattern "aaa..ccc" = false /\
  Re.re_match key_pattern "aaa.bbb.c c" = false.
Proof. repeat split; vm_compute; reflexivity. Qed.

Example platform_pattern_examples :
  Re.re_search platform_pattern "https://xyz.supabase.co" = true /\
  Re.re_search platform_pattern "https://xyz.supabase.in" = true /\
  Re.re_search platform_pattern "https://supabase.com" = true /\
  Re.re_search platform_pattern "https://example.com:8000" = false.
Proof. repeat split; vm_compute; reflexivity. Qed.

Example split_examples :
  Py.split "." "https://xyz.supabase.co" = ["https://xyz"; "supabase"; "co"] /\
  Py.split "." "https://supabase.co" = ["https://supabase"; "co"] /\
  Py.split "." "a..b." = ["a"; ""; "b"; ""] /\
  Py.split "." "" = [""].
Proof. repeat split; reflexivity. Qed.

Example replace_examples :
  Py.replace "http" "ws" "https://xyz.supabase.co/realtime/v1" =
    "wss://xyz.supabase.co/realtime/v1" /\
  Py.replace "http" "ws" "http://localhost:54321/realtime/v1" =
    "ws://localhost:54321/realtime/v1" /\
  Py.replace "http" "ws" "https://httpbin.org/realtime/v1" = "wss://wsbin.org/realtime/v1" /\
  Py.replace "aa" "b" "aaa" = "ba" /\
  Py.replace "" "-" "ab" = "-a-b-".
Proof. repeat split; reflexivity. Qed.

Example test_client_created :
  create_client TestBackend.url TestBackend.key TestBackend.options (TestBackend.world None) =
  (Return TestBackend.client, TestBackend.client_world).
Proof. vm_compute. reflexivity. Qed.

(** * Part III: the specification, claim by claim *)

Section Claims.
Context `{B : Backend}.

(** C1, as the code has it. For a base URL and key that pass the guards the
    functions endpoint is decided by whether the URL contains one of the two
    managed-hosting domains (see [Patterns.platform_pattern_spec]): if it
    does not, the endpoint is the base URL followed by [/functions/v1]; if
    it does and the URL splits on [.] into three pieces or more, it is
    [<piece 0>.functions.<piece 1>.<piece 2>], and piece 0 still carries the
    scheme. So [https://xyz.supabase.co] gives
    [https://xyz.functions.supabase.co] and [https://example.com:8000]
    gives [https://example.com:8000/functions/v1]. A client that
    [create_client] returns is the object spoken of
    ([create_client_initialised]). *)
Theorem C1_functions_endpoint (url key : string) (opts : ClientOptions.t) (w : World) :
  accepted url key = true ->
  (Re.re_search platform_pattern url = false ->
   Client.functions_url (initialised url key opts w) = Some (url +:+ "/functions/v1")) /\
  (forall (p0 p1 p2 : string) (ps : list string),
     Re.re_search platform_pattern url = true ->
     Py.split "." url = p0 :: p1 :: p2 :: ps ->
     Client.functions_url (initialised url key opts w) =
       Some (p0 +:+ ".functions." +:+ p1 +:+ "." +:+ p2)) /\
  (url = "https://xyz.supabase.co" ->
   Client.functions_url (initialised url key opts w) =
     Some "https://xyz.functions.supabase.co") /\
  (url = "https://example.com:8000" ->
   Client.functions_url (initialised url key opts w) =
     Some "https://example.com:8000/functions/v1").
Proof.
  intros Ha. pose proof (Client_init_endpoints url key opts w Ha) as H.
  unfold wp in H. destruct H as (_ & _ & _ & _ & _ & _ & H).
  unfold initialised. rewrite H. clear H.
  split; [intros ->; reflexivity |].
  split; [intros p0 p1 p2 ps -> ->; reflexivity |].
  split; intros ->; reflexivity.
Qed.

(** C2. When the base URL is empty, the key is empty, or the base URL does
    not match [^(https?)://.+] (in particular when it is not of the form
    [<scheme>://<rest>] with scheme [http] or [https]), [create_client]
    raises [SupabaseException] and the world is as it was: no sub-client
    has been called, and no client is returned. *)
Theorem C2_invalid_configuration (url key : string) (opts : ClientOptions.t) (w : World) :
  url = "" \/ key = "" \/ Re.re_match url_pattern url = false \/
  ~ (exists scheme rest : string,
       (scheme = "http" \/ scheme = "https") /\ url = scheme +:+ "://" +:+ rest) ->
  exists msg, create_client url key opts w = (Raise (SupabaseException msg), w).
Proof.
  intros H.
  assert (Hr : accepted url key = false).
  { unfold accepted. destruct H as [-> | [-> | [H | H]]].
    - reflexivity.
    - now rewrite andb_false_r.
    - rewrite H. now rewrite andb_false_r.
    - destruct (Re.re_match url_pattern url) eqn:Hm; [| now rewrite andb_false_r].
      exfalso. apply H. apply Patterns.url_pattern_spec in Hm
        as (scheme & c & rest & Hs & _ & ->).
      now exists scheme, (String c rest). }
  destruct (Client_init_rejected url key opts Client.blank w Hr) as [msg Hm].
  exists msg. unfold create_client, Client_new. now rewrite Hm.
Qed.

(** C3, as the code has it. With a base URL that matches its pattern, a
    non-empty key that does not match
    [^[A-Za-z0-9-_=]+\.[A-Za-z0-9-_=]+\.?[A-Za-z0-9-_.+/=]*$] makes
    [create_client] raise [SupabaseException("Invalid API key")] before any
    sub-client is called. The pattern asks for two non-empty segments, not
    three, so what is rejected for its number of segments is a key with
    fewer than two. *)
Theorem C3_invalid_key (url key : string) (opts : ClientOptions.t) (w : World) :
  Re.re_match url_pattern url = true ->
  key <> "" ->
  Re.re_match key_pattern key = false \/ length (Py.split "." key) < 2 ->
  create_client url key opts w = (Raise (SupabaseException "Invalid API key"), w).
Proof.
  intros Hu Hk H.
  assert (Hm : Re.re_match key_pattern key = false).
  { destruct H as [H | H]; [exact H |].
    destruct (Re.re_match key_pattern key) eqn:Hm; [| reflexivity]. exfalso.
    apply Patterns.key_pattern_spec in Hm as (a & b & t & nl & -> & _).
    change (a +:+ "." +:+ b +:+ t +:+ nl) with (a +:+ String "." (b +:+ t +:+ nl)) in H.
    rewrite PyFacts.split_length_app in H.
    pose proof (PyFacts.split_length_pos "." a).
    pose proof (PyFacts.split_length_pos "." (b +:+ t +:+ nl)). lia. }
  unfold create_client, Client_new.
  rewrite (Client_init_rejected_key url key opts Client.blank w); auto.
  - now apply url_pattern_nonempty.
  - now apply truthy_true.
Qed.

(** C4, as the code has it. On a client that [create_client] returned,
    [_get_auth_headers] asks the auth sub-client for the session and
    returns the two entries [apiKey], the key, and [Authorization]: with a
    session that is [Bearer ] followed by its access token, but without
    one it is [Bearer None], which is never [Bearer ] followed by the
    key. *)
Theorem C4_auth_headers
    (url key : string) (opts : ClientOptions.t) (w0 w1 w : World) (c : Client.t) :
  create_client url key opts w0 = (Return c, w1) ->
  exists a,
    Client.auth c = Some a /\
    _get_auth_headers c w =
    (let w' st := {| store := st; calls := calls w ++ [CallGetSession a] |} in
     match auth_get_session a (store w) with
     | (inr (Some session), st) =>
         (Return (<["Authorization" := "Bearer " +:+ access_token session]>
                    (<["apiKey" := key]> (∅ : dict))), c, w' st)
     | (inr None, st) =>
         (Return (<["Authorization" := "Bearer None"]>
                    (<["apiKey" := key]> (∅ : dict))), c, w' st)
     | (inl e, st) => (Raise (SubClientError e), c, w' st)
     end) /\
    "Bearer None" <> "Bearer " +:+ key.
Proof.
  intros E. pose proof (create_client_returned _ _ _ _ _ _ E) as [Ha _].
  apply create_client_attributes in E as (f & a & p & s & ->).
  exists a. split; [reflexivity |]. split.
  - rewrite (get_auth_headers_run _ w a key) by reflexivity. cbv zeta.
    destruct (auth_get_session a (store w)) as [[e|[d|]] st]; reflexivity.
  - intros Hk. simpl in Hk. injection Hk as <-.
    apply accepted_true in Ha as (_ & _ & _ & Ha). vm_compute in Ha. discriminate.
Qed.

(** C5. For a base URL and key that pass the guards, the REST endpoint is
    the base URL followed by [/rest/v1], the auth endpoint the base URL
    followed by [/auth/v1] and the storage endpoint the base URL followed by
    [/storage/v1]. *)
Theorem C5_rest_auth_storage_endpoints
    (url key : string) (opts : ClientOptions.t) (w : World) :
  accepted url key = true ->
  Client.rest_url (initialised url key opts w) = Some (url +:+ "/rest/v1") /\
  Client.auth_url (initialised url key opts w) = Some (url +:+ "/auth/v1") /\
  Client.storage_url (initialised url key opts w) = Some (url +:+ "/storage/v1").
Proof.
  intros Ha. pose proof (Client_init_endpoints url key opts w Ha) as H.
  unfold wp in H. unfold initialised. tauto.
Qed.

(** C6. For a base URL and key that pass the guards, the realtime endpoint
    is the base URL followed by [/realtime/v1] in which every occurrence of
    [http], wherever it stands, has been replaced by [ws]; no [http] is
    left in it. *)
Theorem C6_realtime_endpoint (url key : string) (opts : ClientOptions.t) (w : World) :
  accepted url key = true ->
  exists realtime : string,
    Client.realtime_url (initialised url key opts w) = Some realtime /\
    realtime = Py.replace "http" "ws" (url +:+ "/realtime/v1") /\
    Py.Replaced "http" "ws" (url +:+ "/realtime/v1") realtime /\
    Str.contains "http" realtime = false.
Proof.
  intros Ha. pose proof (Client_init_endpoints url key opts w Ha) as H.
  unfold wp in H. destruct H as (_ & _ & _ & H & _).
  exists (Py.replace "http" "ws" (url +:+ "/realtime/v1")).
  assert (Hr : Py.Replaced "http" "ws" (url +:+ "/realtime/v1")
                 (Py.replace "http" "ws" (url +:+ "/realtime/v1"))).
  { apply PyFacts.replace_spec; [discriminate | reflexivity]. }
  unfold initialised. repeat split; auto.
  now apply PyFacts.replaced_no_http with (s := url +:+ "/realtime/v1").
Qed.

(** C7. On a client that [create_client] returned, [set_session] passes
    both tokens to [auth.set_session]; when that returns, it passes the
    access token to [postgrest.auth] on the client's own postgrest
    sub-client; when that returns too, the result is what
    [auth.set_session] returned. These are its only calls, an exception of
    a sub-client is passed on, and the client object is unchanged. *)
Theorem C7_set_session
    (url key : string) (opts : ClientOptions.t) (w0 w1 : World) (c : Client.t) :
  create_client url key opts w0 = (Return c, w1) ->
  exists a p,
    Client.auth c = Some a /\ Client.postgrest c = Some p /\
    forall (access refresh : string) (w : World),
      set_session access refresh c w =
      match auth_set_session a access refresh (store w) with
      | (inr response, st1) =>
          match postgrest_auth p access st1 with
          | (inr _, st2) =>
              (Return response, c,
               {| store := st2;
                  calls := calls w ++
                           [CallSetSession a access refresh; CallPostgrestAuth p access] |})
          | (inl e, st2) =>
              (Raise (SubClientError e), c,
               {| store := st2;
                  calls := calls w ++
                           [CallSetSession a access refresh; CallPostgrestAuth p access] |})
          end
      | (inl e, st1) =>
          (Raise (SubClientError e), c,
           {| store := st1; calls := calls w ++ [CallSetSession a access refresh] |})
      end.
Proof.
  intros E. apply create_client_attributes in E as (f & a & p & s & ->).
  exists a, p. split; [reflexivity |]. split; [reflexivity |].
  intros access refresh w. now apply set_session_run.
Qed.

(** C8. On a client that [create_client] returned, [table(name)] and
    [from_(name)] are the same computation: one call of [postgrest.from_]
    with that name on the client's postgrest sub-client, whose outcome is
    the outcome of the method. *)
Theorem C8_table_from_
    (url key : string) (opts : ClientOptions.t) (w0 w1 w : World) (c : Client.t)
    (name : string) :
  create_client url key opts w0 = (Return c, w1) ->
  table name c w = from_ name c w /\
  exists p, Client.postgrest c = Some p /\
    from_ name c w =
    match postgrest_from p name (store w) with
    | (inr builder, st) =>
        (Return builder, c,
         {| store := st; calls := calls w ++ [CallPostgrestFrom p name] |})
    | (inl e, st) =>
        (Raise (SubClientError e), c,
         {| store := st; calls := calls w ++ [CallPostgrestFrom p name] |})
    end.
Proof.
  intros E. split; [reflexivity |].
  apply create_client_attributes in E as (f & a & p & s & ->).
  exists p. split; [reflexivity |]. now apply from__run.
Qed.

(** C9. The five endpoints of a client that [create_client] returned are
    the ones derived from the base URL at construction, and after any
    sequence of [set_session], [functions], [table], [from_] and [rpc]
    calls, whatever their outcomes, the client still has the same five
    endpoints. *)
Theorem C9_endpoints_unchanged
    (url key : string) (opts : ClientOptions.t) (w0 w1 w : World) (c : Client.t)
    (ops : list operation) :
  create_client url key opts w0 = (Return c, w1) ->
  let c' := (run_operations ops c w).1 in
  (Client.rest_url c' = Client.rest_url c /\
   Client.realtime_url c' = Client.realtime_url c /\
   Client.auth_url c' = Client.auth_url c /\
   Client.storage_url c' = Client.storage_url c /\
   Client.functions_url c' = Client.functions_url c) /\
  (Client.rest_url c = Some (url +:+ "/rest/v1") /\
   Client.realtime_url c = Some (Py.replace "http" "ws" (url +:+ "/realtime/v1")) /\
   Client.auth_url c = Some (url +:+ "/auth/v1") /\
   Client.storage_url c = Some (url +:+ "/storage/v1") /\
   is_Some (Client.functions_url c)).
Proof.
  intros E. cbv zeta. rewrite run_operations_self. split; [tauto |].
  apply create_client_attributes in E as (f & a & p & s & ->).
  cbn [Client.rest_url Client.realtime_url Client.auth_url Client.storage_url
       Client.functions_url].
  repeat split. now exists f.
Qed.

End Claims.

(** C10. The base URL [https://supabase.co] and the key [a.b.c] pass the
    four guards; the URL contains [supabase.co] and splits on [.] into two
    pieces only, so with any sub-client libraries, options and world
    [create_client] raises [IndexError], not [SupabaseException], before
    any sub-client is called. *)
Theorem C10_index_error :
  accepted "https://supabase.co" "a.b.c" = true /\
  Re.re_search platform_pattern "https://supabase.co" = true /\
  Py.split "." "https://supabase.co" = ["https://supabase"; "co"] /\
  forall (B : Backend) (opts : ClientOptions.t) (w : World),
    create_client "https://supabase.co" "a.b.c" opts w = (Raise IndexError, w).
Proof.
  split; [vm_compute; reflexivity |].
  split; [vm_compute; reflexivity |].
  split; [reflexivity |].
  intros B opts w.
  assert (Ha : accepted "https://supabase.co" "a.b.c" = true) by (vm_compute; reflexivity).
  assert (Hp : Re.re_search platform_pattern "https://supabase.co" = true)
    by (vm_compute; reflexivity).
  assert (Hl : length (Py.split "." "https://supabase.co") < 3) by (simpl; lia).
  pose proof (Client_init_index_error _ _ opts w Ha Hp Hl) as H. unfold wp in H.
  rewrite create_client_unfold. destruct H as [-> ->]. reflexivity.
Qed.

(** ** The claims at the running example *)

Section Instances.
Import TestBackend.

(** C1 as the specification words it fails: the functions endpoint of
    [https://xyz.supabase.co] is not [xyz.functions.supabase.co]; the
    scheme is kept. *)
Lemma C1_functions_endpoint_counterexample :
  exists c w',
    create_client "https://xyz.supabase.co" "a.b.c" options (world None) = (Return c, w') /\
    Client.functions_url c = Some "https://xyz.functions.supabase.co" /\
    Client.functions_url c <> Some "xyz.functions.supabase.co".
Proof.
  exists client, client_world. split; [vm_compute; reflexivity |].
  split; [reflexivity | discriminate].
Qed.

Lemma C1_functions_endpoint_witness :
  (accepted "https://xyz.supabase.co" "a.b.c" = true /\
   Re.re_search platform_pattern "https://xyz.supabase.co" = true /\
   Py.split "." "https://xyz.supabase.co" = ["https://xyz"; "supabase"; "co"] /\
   Client.functions_url
     (initialised "https://xyz.supabase.co" "a.b.c" options (world None)) =
   Some "https://xyz.functions.supabase.co") /\
  (accepted "https://example.com:8000" "a.b.c" = true /\
   Re.re_search platform_pattern "https://example.com:8000" = false /\
   Client.functions_url
     (initialised "https://example.com:8000" "a.b.c" options (world None)) =
   Some "https://example.com:8000/functions/v1").
Proof.
  split.
  - split; [vm_compute; reflexivity |]. split; [vm_compute; reflexivity |].
    split; [reflexivity |].
    refine (proj1 (proj2 (C1_functions_endpoint "https://xyz.supabase.co" "a.b.c"
                            options (world None) _))
                  "https://xyz" "supabase" "co" [] _ _);
      [vm_compute; reflexivity | vm_compute; reflexivity | reflexivity].
  - split; [vm_compute; reflexivity |]. split; [vm_compute; reflexivity |].
    refine (proj1 (C1_functions_endpoint "https://example.com:8000" "a.b.c"
                     options (world None) _) _);
      [vm_compute; reflexivity | vm_compute; reflexivity].
Defined.

Lemma C2_invalid_configuration_witness :
  (exists msg, create_client "" "a.b.c" options (world None) =
               (Raise (SupabaseException msg), world None)) /\
  (exists msg, create_client "https://xyz.supabase.co" "" options (world None) =
               (Raise (SupabaseException msg), world None)) /\
  (Re.re_match url_pattern "ftp://example.com" = false /\
   exists msg, create_client "ftp://example.com" "a.b.c" options (world None) =
               (Raise (SupabaseException msg), world None)).
Proof.
  split; [| split; [| split; [vm_compute; reflexivity |]]].
  - apply (C2_invalid_configuration "" "a.b.c" options (world None)). left. reflexivity.
  - apply (C2_invalid_configuration "https://xyz.supabase.co" "" options (world None)).
    right. left. reflexivity.
  - apply (C2_invalid_configuration "ftp://example.com" "a.b.c" options (world None)).
    right. right. left. vm_compute. reflexivity.
Defined.

(** C3 as the specification words it fails: the key [a.b] has two
    segments, not three, and construction succeeds with it. *)
Lemma C3_invalid_key_counterexample :
  "a.b" <> "" /\ length (Py.split "." "a.b") = 2 /\
  exists c w',
    create_client "https://xyz.supabase.co" "a.b" options (world None) = (Return c, w').
Proof.
  split; [discriminate |]. split; [reflexivity |].
  eexists. eexists. vm_compute. reflexivity.
Qed.

Lemma C3_invalid_key_witness :
  (Re.re_match url_pattern "https://xyz.supabase.co" = true /\ "abc" <> "" /\
   length (Py.split "." "abc") < 2 /\
   create_client "https://xyz.supabase.co" "abc" options (world None) =
   (Raise (SupabaseException "Invalid API key"), world None)) /\
  (Re.re_match key_pattern "a..c" = false /\
   create_client "https://xyz.supabase.co" "a..c" options (world None) =
   (Raise (SupabaseException "Invalid API key"), world None)).
Proof.
  split.
  - split; [vm_compute; reflexivity |]. split; [discriminate |].
    split; [simpl; lia |].
    apply (C3_invalid_key "https://xyz.supabase.co" "abc" options (world None));
      [vm_compute; reflexivity | discriminate | right; simpl; lia].
  - split; [vm_compute; reflexivity |].
    apply (C3_invalid_key "https://xyz.supabase.co" "a..c" options (world None));
      [vm_compute; reflexivity | discriminate | left; vm_compute; reflexivity].
Defined.

Lemma C4_auth_headers_witness :
  create_client url key options (world None) = (Return client, client_world) /\
  result_of (_get_auth_headers client client_world) =
  Return (<["Authorization" := "Bearer None"]> (<["apiKey" := "a.b.c"]> (∅ : dict))) /\
  "Bearer None" <> "Bearer a.b.c".
Proof.
  assert (E : create_client url key options (world None) = (Return client, client_world))
    by (vm_compute; reflexivity).
  split; [exact E |].
  destruct (C4_auth_headers url key options (world None) client_world client_world client E)
    as (a & Ha & Hh & Hne).
  split; [| exact Hne].
  rewrite Hh. reflexivity.
Defined.

Lemma C5_rest_auth_storage_endpoints_witness :
  accepted "https://xyz.supabase.co" "a.b.c" = true /\
  Client.rest_url (initialised "https://xyz.supabase.co" "a.b.c" options (world None)) =
    Some "https://xyz.supabase.co/rest/v1" /\
  Client.auth_url (initialised "https://xyz.supabase.co" "a.b.c" options (world None)) =
    Some "https://xyz.supabase.co/auth/v1" /\
  Client.storage_url (initialised "https://xyz.supabase.co" "a.b.c" options (world None)) =
    Some "https://xyz.supabase.co/storage/v1".
Proof.
  split; [vm_compute; reflexivity |].
  apply (C5_rest_auth_storage_endpoints "https://xyz.supabase.co" "a.b.c" options (world None)).
  vm_compute. reflexivity.
Defined.

Lemma C6_realtime_endpoint_witness :
  accepted "https://httpbin.org" "a.b.c" = true /\
  exists realtime : string,
    Client.realtime_url (initialised "https://httpbin.org" "a.b.c" options (world None)) =
      Some realtime /\
    realtime = "wss://wsbin.org/realtime/v1" /\
    Py.Replaced "http" "ws" "https://httpbin.org/realtime/v1" realtime /\
    Str.contains "http" realtime = false.
Proof.
  split; [vm_compute; reflexivity |].
  apply (C6_realtime_endpoint "https://httpbin.org" "a.b.c" options (world None)).
  vm_compute. reflexivity.
Defined.

Lemma C7_set_session_witness :
  create_client url key options (world None) = (Return client, client_world) /\
  exists a p,
    Client.auth client = Some a /\ Client.postgrest client = Some p /\
    set_session "access" "refresh" client client_world =
    (Return ("access", "refresh"), client,
     {| store := with_ext (store client_world)
                   {| session := Some ("access", "refresh"); bearer := Some "access" |};
        calls := calls client_world ++
                 [CallSetSession a "access" "refresh"; CallPostgrestAuth p "access"] |}).
Proof.
  assert (E : create_client url key options (world None) = (Return client, client_world))
    by (vm_compute; reflexivity).
  split; [exact E |].
  destruct (C7_set_session url key options (world None) client_world client E)
    as (a & p & Ha & Hp & H).
  exists a, p. split; [exact Ha |]. split; [exact Hp |].
  rewrite H. reflexivity.
Defined.

Lemma C8_table_from__witness :
  create_client url key options (world None) = (Return client, client_world) /\
  table "countries" client client_world = from_ "countries" client client_world /\
  from_ "countries" client client_world =
  (Return ("https://xyz.supabase.co/rest/v1", "countries"), client,
   {| store := store client_world;
      calls := calls client_world ++
               [CallPostgrestFrom "https://xyz.supabase.co/rest/v1" "countries"] |}).
Proof.
  assert (E : create_client url key options (world None) = (Return client, client_world))
    by (vm_compute; reflexivity).
  split; [exact E |].
  destruct (C8_table_from_ url key options (world None) client_world client_world client
              "countries" E) as (Ht & p & Hp & Hf).
  split; [exact Ht |]. rewrite Hf. injection Hp as <-. reflexivity.
Defined.

Lemma C9_endpoints_unchanged_witness :
  create_client url key options (world None) = (Return client, client_world) /\
  let c' := (run_operations
               [OpSetSession "access" "refresh"; OpFunctions; OpTable "countries";
                OpFrom "cities"; OpRpc "hello" []]
               client client_world).1 in
  Client.rest_url c' = Some "https://xyz.supabase.co/rest/v1" /\
  Client.realtime_url c' = Some "wss://xyz.supabase.co/realtime/v1" /\
  Client.auth_url c' = Some "https://xyz.supabase.co/auth/v1" /\
  Client.storage_url c' = Some "https://xyz.supabase.co/storage/v1" /\
  Client.functions_url c' = Some "https://xyz.functions.supabase.co".
Proof.
  assert (E : create_client url key options (world None) = (Return client, client_world))
    by (vm_compute; reflexivity).
  split; [exact E |].
  exact (proj1 (C9_endpoints_unchanged url key options (world None) client_world client_world
                  client
                  [OpSetSession "access" "refresh"; OpFunctions; OpTable "countries";
                   OpFrom "cities"; OpRpc "hello" []] E)).
Defined.

End Instances.

(** * Part IV: further properties of the facade *)

(** ** How construction can fail *)

Section Failures.
Context `{B : Backend}.

(** After the guards, [__init__] raises [IndexError] only from the
    subscripts, and otherwise only what a sub-client raised. *)
Lemma Client_init_raises url key opts w :
  accepted url key = true ->
  wp (Client_init url key opts)
     (fun r _ w' =>
        match r with
        | Return _ => True
        | Raise (SupabaseException _) => False
        | Raise (AttributeError _) => False
        | Raise IndexError =>
            Re.re_search platform_pattern url = true /\
            length (Py.split "." url) < 3 /\ w' = w
        | Raise (SubClientError _) => True
        end)
     Client.blank w.
Proof.
  intros H. apply accepted_true in H as [H1 [H2 [H3 H4]]].
  unfold Client_init. rewrite H1, H2, H3, H4.
  do 12 wp_step.
  destruct (Re.re_search platform_pattern url) eqn:Hp;
    [destruct (Py.split "." url) as [|p0 [|p1 [|p2 ps]]] eqn:Hs |].
  all: wp_run.
  all: try exact I.
  all: repeat split; simpl; lia.
Qed.

Lemma create_client_raised url key opts w e w' :
  create_client url key opts w = (Raise e, w') ->
  result_of (Client_init url key opts Client.blank w) = Raise e /\
  world_of (Client_init url key opts Client.blank w) = w'.
Proof.
  rewrite create_client_unfold.
  destruct (result_of (Client_init url key opts Client.blank w)); intros E;
    [discriminate | now injection E as -> ->].
Qed.

Lemma accepted_false (url key : string) :
  accepted url key = false <->
  url = "" \/ key = "" \/
  Re.re_match url_pattern url = false \/ Re.re_match key_pattern key = false.
Proof.
  unfold accepted. rewrite !andb_false_iff, !truthy_false. tauto.
Qed.

(** X1. The guards are tried in the order URL present, key present, URL
    shape, key shape, and the first that fails decides the message: an
    empty URL is reported whatever the key is, an empty key before a
    malformed URL, and a malformed URL before a malformed key. In each case
    nothing has been called. *)
Theorem X1_guard_order (url key : string) (opts : ClientOptions.t) (w : World) :
  (url = "" ->
   create_client url key opts w =
   (Raise (SupabaseException "supabase_url is required"), w)) /\
  (url <> "" -> key = "" ->
   create_client url key opts w =
   (Raise (SupabaseException "supabase_key is required"), w)) /\
  (url <> "" -> key <> "" -> Re.re_match url_pattern url = false ->
   create_client url key opts w = (Raise (SupabaseException "Invalid URL"), w)) /\
  (url <> "" -> key <> "" -> Re.re_match url_pattern url = true ->
   Re.re_match key_pattern key = false ->
   create_client url key opts w = (Raise (SupabaseException "Invalid API key"), w)).
Proof.
  unfold create_client, Client_new, Client_init.
  split; [intros ->; reflexivity |].
  split; [intros Hu%truthy_true ->; rewrite Hu; reflexivity |].
  split; [intros Hu%truthy_true Hk%truthy_true Hm; rewrite Hu, Hk, Hm; reflexivity |].
  intros Hu%truthy_true Hk%truthy_true Hm Hn. rewrite Hu, Hk, Hm, Hn. reflexivity.
Qed.

(** X2. [create_client] raises [SupabaseException] exactly when one of the
    four guards fails; the later stages of construction never raise it,
    and when it is raised the world is untouched. *)
Theorem X2_configuration_error_iff (url key : string) (opts : ClientOptions.t) (w w' : World) :
  (exists msg, create_client url key opts w = (Raise (SupabaseException msg), w')) <->
  (url = "" \/ key = "" \/
   Re.re_match url_pattern url = false \/ Re.re_match key_pattern key = false) /\
  w' = w.
Proof.
  rewrite <- accepted_false. split.
  - intros [msg E]. destruct (accepted url key) eqn:Ha.
    + exfalso. apply create_client_raised in E as [Er _].
      pose proof (Client_init_raises url key opts w Ha) as H. unfold wp in H.
      now rewrite Er in H.
    + split; [reflexivity |].
      destruct (Client_init_rejected url key opts Client.blank w Ha) as [msg' Hm].
      unfold create_client, Client_new in E. rewrite Hm in E. now injection E.
  - intros [Ha ->].
    destruct (Client_init_rejected url key opts Client.blank w Ha) as [msg Hm].
    exists msg. unfold create_client, Client_new. now rewrite Hm.
Qed.

(** X3. [create_client] raises [IndexError] exactly when the guards pass,
    the URL contains [supabase.co] or [supabase.in] somewhere, and the URL
    has fewer than three pieces between its dots; the world is then
    untouched. *)
Theorem X3_index_error_iff (url key : string) (opts : ClientOptions.t) (w w' : World) :
  create_client url key opts w = (Raise IndexError, w') <->
  accepted url key = true /\
  Str.contains "supabase.co" url || Str.contains "supabase.in" url = true /\
  length (Py.split "." url) < 3 /\
  w' = w.
Proof.
  rewrite <- Patterns.platform_pattern_spec. split.
  - intros E. destruct (accepted url key) eqn:Ha.
    + split; [reflexivity |]. apply create_client_raised in E as [Er Ew].
      pose proof (Client_init_raises url key opts w Ha) as H. unfold wp in H.
      rewrite Er, Ew in H. tauto.
    + exfalso.
      destruct (Client_init_rejected url key opts Client.blank w Ha) as [msg Hm].
      unfold create_client, Client_new in E. rewrite Hm in E. discriminate.
  - intros (Ha & Hp & Hl & ->).
    pose proof (Client_init_index_error url key opts w Ha Hp Hl) as H. unfold wp in H.
    rewrite create_client_unfold. destruct H as [-> ->]. reflexivity.
Qed.

(** X4. Whatever [create_client] raises is a [SupabaseException], an
    [IndexError] or an exception of a sub-client: [__init__] never reads an
    attribute before it has assigned it. *)
Theorem X4_no_attribute_error
    (url key : string) (opts : ClientOptions.t) (w w' : World) (e : exn) :
  create_client url key opts w = (Raise e, w') ->
  (exists msg, e = SupabaseException msg) \/ e = IndexError \/
  (exists x, e = SubClientError x).
Proof.
  intros E. destruct (accepted url key) eqn:Ha.
  - apply create_client_raised in E as [Er _].
    pose proof (Client_init_raises url key opts w Ha) as H. unfold wp in H.
    rewrite Er in H. destruct e as [msg| |name|x]; eauto; contradiction.
  - destruct (Client_init_rejected url key opts Client.blank w Ha) as [msg Hm].
    unfold create_client, Client_new in E. rewrite Hm in E. injection E as <- _. eauto.
Qed.

End Failures.

(** ** What the guards accept *)

Section Guards.
Context `{B : Backend}.

(** X5. The guards pass exactly for a URL that is [http://] or [https://]
    followed by at least one character that is not a newline, and a key
    made of a non-empty run of [[A-Za-z0-9-_=]], a dot, a second such run,
    any run of [[A-Za-z0-9-_.+/=]] and at most one final newline. Nothing
    else about the URL (its host, what follows the first character) or the
    key (a third segment, a signature) is looked at. *)
Theorem X5_accepted_shape (url key : string) :
  accepted url key = true <->
  (exists (scheme : string) (c : ascii) (rest : string),
     (scheme = "http" \/ scheme = "https") /\ c <> "010"%char /\
     url = scheme +:+ "://" +:+ String c rest) /\
  (exists a b t nl : string,
     key = a +:+ "." +:+ b +:+ t +:+ nl /\
     a <> "" /\ Str.all jwt_char a = true /\
     b <> "" /\ Str.all jwt_char b = true /\
     Str.all jwt_tail_char t = true /\
     (nl = "" \/ nl = String "010" "")).
Proof.
  rewrite accepted_true, <- Patterns.url_pattern_spec, <- Patterns.key_pattern_spec.
  split; [tauto |]. intros [Hu Hk]. repeat split; auto.
  - now apply url_pattern_nonempty.
  - destruct key; [vm_compute in Hk; discriminate | reflexivity].
Qed.

(** X6. The key guard tolerates one trailing newline: a key that passes
    and does not end in a newline still passes with a newline appended,
    and the newline is then part of the key the client keeps and sends. *)
Theorem X6_trailing_newline (url key : string) (opts : ClientOptions.t) (w : World) :
  accepted url key = true ->
  (forall k, key <> k +:+ String "010" "") ->
  accepted url (key +:+ String "010" "") = true /\
  Client.supabase_key (initialised url (key +:+ String "010" "") opts w) =
    Some (key +:+ String "010" "").
Proof.
  intros Ha Hnl.
  assert (Ha' : accepted url (key +:+ String "010" "") = true).
  { apply accepted_true in Ha as (Hu & Hk & Hmu & Hmk). apply accepted_true.
    split; [exact Hu |]. split; [destruct key; reflexivity |]. split; [exact Hmu |].
    apply Patterns.key_pattern_spec in Hmk as (a & b & t & nl & -> & Hrest).
    destruct Hrest as (Hane & Ha & Hbne & Hb & Ht & [-> | ->]).
    - apply Patterns.key_pattern_spec. exists a, b, t, (String "010" "").
      split; [| tauto ].
      rewrite !StrFacts.app_nil_r. repeat (rewrite ?StrFacts.app_assoc; simpl). reflexivity.
    - exfalso. apply (Hnl (a +:+ "." +:+ b +:+ t)).
      repeat (rewrite ?StrFacts.app_assoc; simpl). reflexivity. }
  split; [exact Ha' |].
  pose proof (Client_init_endpoints url (key +:+ String "010" "") opts w Ha') as H.
  unfold wp in H. unfold initialised. tauto.
Qed.

End Guards.

(** ** The derived endpoints and the base URL *)

Section Endpoints.
Context `{B : Backend}.

Lemma split_prefix (sep : ascii) (pre s : string) :
  Str.all (fun c => negb (Ascii.eqb c sep)) pre = true ->
  exists p ps, Py.split sep s = p :: ps /\ Py.split sep (pre +:+ s) = (pre +:+ p) :: ps.
Proof.
  induction pre as [|c pre IH]; simpl; intros H.
  - pose proof (PyFacts.split_not_nil sep s). destruct (Py.split sep s) as [|p ps]; [congruence |].
    now exists p, ps.
  - apply andb_true_iff in H as [Hc H]. apply negb_true_iff in Hc.
    destruct (IH H) as (p & ps & Hs & Hp). exists p, ps. split; [exact Hs |].
    rewrite Hc, Hp. reflexivity.
Qed.

Lemma replace_no_occurrence (old new s : string) :
  Str.contains old s = false -> Py.replace old new s = s.
Proof.
  unfold Py.replace. destruct old as [|a old].
  - destruct s; discriminate.
  - cbn [Str.is_empty]. induction s as [|c s IH]; [reflexivity |].
    cbn [Str.contains]. intros H. apply orb_false_iff in H as [Hs Hc].
    rewrite PyFacts.replace_from_miss by exact Hs. now rewrite IH.
Qed.

Lemma starts_with_http_suffix (x : string) :
  Str.starts_with "http" (x +:+ "/realtime/v1") = Str.starts_with "http" x.
Proof.
  destruct x as [|a [|b [|c [|d x]]]]; simpl; try reflexivity;
    repeat (match goal with |- context [Ascii.eqb ?u ?v] => destruct (Ascii.eqb u v) end;
            simpl; try reflexivity).
Qed.

Lemma contains_http_suffix (x : string) :
  Str.contains "http" (x +:+ "/realtime/v1") = Str.contains "http" x.
Proof.
  induction x as [|c x IH]; [reflexivity |].
  change (String c x +:+ "/realtime/v1") with (String c (x +:+ "/realtime/v1")).
  cbn [Str.contains]. rewrite IH. f_equal.
  apply (starts_with_http_suffix (String c x)).
Qed.

Lemma replace_http_url (rest : string) :
  Py.replace "http" "ws" ("http://" +:+ rest) = "ws://" +:+ Py.replace "http" "ws" rest /\
  Py.replace "http" "ws" ("https://" +:+ rest) = "wss://" +:+ Py.replace "http" "ws" rest.
Proof. split; reflexivity. Qed.

Lemma accepted_scheme (url key : string) :
  accepted url key = true ->
  exists rest, url = "http://" +:+ rest \/ url = "https://" +:+ rest.
Proof.
  intros Ha. apply accepted_true in Ha as (_ & _ & Hu & _).
  apply Patterns.url_pattern_spec in Hu as (scheme & c & rest & [-> | ->] & _ & ->);
    exists (String c rest); auto.
Qed.

(** X7. For a base URL and key that pass the guards, the realtime endpoint
    begins with [ws://] when the URL begins with [http://] and with
    [wss://] when it begins with [https://]; the functions endpoint, in
    either of its forms, begins with the scheme of the URL. *)
Theorem X7_endpoint_schemes (url key : string) (opts : ClientOptions.t) (w : World) :
  accepted url key = true ->
  exists scheme ws rest : string,
    (scheme = "http" /\ ws = "ws" \/ scheme = "https" /\ ws = "wss") /\
    url = scheme +:+ "://" +:+ rest /\
    Client.realtime_url (initialised url key opts w) =
      Some (ws +:+ "://" +:+ Py.replace "http" "ws" (rest +:+ "/realtime/v1")) /\
    forall f, Client.functions_url (initialised url key opts w) = Some f ->
              Str.starts_with (scheme +:+ "://") f = true.
Proof.
  intros Ha. pose proof (Client_init_endpoints url key opts w Ha) as H.
  unfold wp in H. destruct H as (_ & _ & _ & Hr & _ & _ & Hf).
  unfold initialised.
  assert (Hfun : forall pre rest, url = pre +:+ rest ->
            Str.all (fun c => negb (Ascii.eqb c ".")) pre = true ->
            forall f, Client.functions_url
                        (self_of (Client_init url key opts Client.blank w)) = Some f ->
                      Str.starts_with pre f = true).
  { intros pre rest -> Hpre f Ef. rewrite Hf in Ef.
    destruct (Re.re_search platform_pattern (pre +:+ rest)).
    - destruct (split_prefix "." pre rest Hpre) as (p & ps & _ & Hs). rewrite Hs in Ef.
      destruct ps as [|p1 [|p2 ps]]; try discriminate. injection Ef as <-.
      rewrite StrFacts.app_assoc. apply StrFacts.starts_with_app.
    - injection Ef as <-. rewrite StrFacts.app_assoc. apply StrFacts.starts_with_app. }
  destruct (accepted_scheme url key Ha) as [rest [E | E]].
  - exists "http", "ws", rest. split; [auto |]. split; [exact E |]. split.
    + rewrite Hr, E. reflexivity.
    + apply (Hfun "http://" rest E). reflexivity.
  - exists "https", "wss", rest. split; [auto |]. split; [exact E |]. split.
    + rewrite Hr, E. reflexivity.
    + apply (Hfun "https://" rest E). reflexivity.
Qed.

(** X8. When what follows the scheme in the base URL contains no [http],
    the realtime endpoint is the base URL with its scheme turned into [ws]
    or [wss] and [/realtime/v1] appended: the replacement touches the scheme
    only. *)
Theorem X8_realtime_scheme_only
    (url key rest : string) (opts : ClientOptions.t) (w : World) :
  accepted url key = true ->
  Str.contains "http" rest = false ->
  (url = "http://" +:+ rest ->
   Client.realtime_url (initialised url key opts w) =
     Some ("ws://" +:+ rest +:+ "/realtime/v1")) /\
  (url = "https://" +:+ rest ->
   Client.realtime_url (initialised url key opts w) =
     Some ("wss://" +:+ rest +:+ "/realtime/v1")).
Proof.
  intros Ha Hc. pose proof (Client_init_endpoints url key opts w Ha) as H.
  unfold wp in H. destruct H as (_ & _ & _ & Hr & _).
  unfold initialised. rewrite Hr.
  assert (Hn : Py.replace "http" "ws" (rest +:+ "/realtime/v1") = rest +:+ "/realtime/v1").
  { apply replace_no_occurrence. now rewrite contains_http_suffix. }
  split; intros ->.
  - change (("http://" +:+ rest) +:+ "/realtime/v1")
      with ("http://" +:+ (rest +:+ "/realtime/v1")).
    rewrite (proj1 (replace_http_url _)), Hn. reflexivity.
  - change (("https://" +:+ rest) +:+ "/realtime/v1")
      with ("https://" +:+ (rest +:+ "/realtime/v1")).
    rewrite (proj2 (replace_http_url _)), Hn. reflexivity.
Qed.

(** X9. In the rewritten form the functions endpoint is made from the
    first three dot-separated pieces of the base URL only: the URL is
    [p0.p1.p2] followed by the remaining pieces, the endpoint is
    [p0.functions.p1.p2], and whatever follows a third dot in the URL is
    dropped. *)
Theorem X9_functions_rewrite
    (url key p0 p1 p2 : string) (ps : list string) (opts : ClientOptions.t) (w : World) :
  accepted url key = true ->
  Str.contains "supabase.co" url || Str.contains "supabase.in" url = true ->
  Py.split "." url = p0 :: p1 :: p2 :: ps ->
  url = p0 +:+ "." +:+ p1 +:+ "." +:+ p2 +:+
        match ps with
        | [] => ""
        | _ :: _ => "." +:+ Py.join "." ps
        end /\
  Client.functions_url (initialised url key opts w) =
    Some (p0 +:+ ".functions." +:+ p1 +:+ "." +:+ p2).
Proof.
  intros Ha Hp Hs. rewrite <- Patterns.platform_pattern_spec in Hp. split.
  - rewrite <- (PyFacts.join_split "." url) at 1. rewrite Hs.
    destruct ps as [|q qs]; simpl; [now rewrite StrFacts.app_nil_r | reflexivity].
  - pose proof (Client_init_endpoints url key opts w Ha) as H.
    unfold wp in H. destruct H as (_ & _ & _ & _ & _ & _ & Hf).
    unfold initialised. now rewrite Hf, Hp, Hs.
Qed.

End Endpoints.

(** ** What construction calls, and with what *)

Section Wiring.
Context `{B : Backend}.



(** X11. When the guards pass and the functions endpoint can be derived,
    an exception raised by the constructor of the auth sub-client is what
    [create_client] raises: that constructor is the only call made, and no
    client is returned. *)
Theorem X11_auth_constructor_raises
    (url key : string) (opts : ClientOptions.t) (w : World)
    (e : ExtError) (st : Store ExtState) :
  accepted url key = true ->
  (Str.contains "supabase.co" url || Str.contains "supabase.in" url = true ->
   3 <= length (Py.split "." url)) ->
  new_auth_client (url +:+ "/auth/v1") (ClientOptions.auto_refresh_token opts)
    (ClientOptions.persist_session opts) (ClientOptions.storage opts)
    (ClientOptions.headers opts) (store w) = (inl e, st) ->
  create_client url key opts w =
  (Raise (SubClientError e),
   {| store := st;
      calls := calls w ++
        [CallNewAuth (url +:+ "/auth/v1") (ClientOptions.auto_refresh_token opts)
           (ClientOptions.persist_session opts) (ClientOptions.storage opts)
           (ClientOptions.headers opts)] |}).
Proof.
  intros Ha Hl Hn. rewrite <- Patterns.platform_pattern_spec in Hl.
  rewrite create_client_unfold.
  cut (wp (Client_init url key opts)
          (fun r _ w' =>
             r = Raise (SubClientError e) /\
             w' = {| store := st;
                     calls := calls w ++
                       [CallNewAuth (url +:+ "/auth/v1")
                          (ClientOptions.auto_refresh_token opts)
                          (ClientOptions.persist_session opts) (ClientOptions.storage opts)
                          (ClientOptions.headers opts)] |})
          Client.blank w).
  { unfold wp. intros [-> ->]. reflexivity. }
  apply accepted_true in Ha as [H1 [H2 [H3 H4]]].
  unfold Client_init. rewrite H1, H2, H3, H4.
  do 12 wp_step.
  destruct (Re.re_search platform_pattern url);
    [destruct (Py.split "." url) as [|p0 [|p1 [|p2 ps]]];
     try (specialize (Hl eq_refl); simpl in Hl; lia) |].
  all: wp_run.
  all: match goal with
       | H : new_auth_client _ _ _ _ _ _ = _, H' : new_auth_client _ _ _ _ _ _ = _ |- _ =>
           rewrite H in H'; inversion H'; subst
       end.
  all: split; reflexivity.
Qed.

End Wiring.

(** ** The methods of a constructed client *)

Section Methods.
Context `{B : Backend}.

(** X12. On a client that [create_client] returned, every call of
    [functions] asks the auth sub-client for the session and builds a new
    functions sub-client on the client's functions endpoint, with [apiKey]
    and an [Authorization] made from the session of that moment; nothing is
    kept from one call to the next and the client object is unchanged. *)
Theorem X12_functions
    (url key : string) (opts : ClientOptions.t) (w0 w1 : World) (c : Client.t) :
  create_client url key opts w0 = (Return c, w1) ->
  exists a f,
    Client.auth c = Some a /\ Client.functions_url c = Some f /\
    forall w : World,
      functions c w =
      match auth_get_session a (store w) with
      | (inr data, st) =>
          let headers :=
            <["Authorization" := "Bearer " +:+ Py.format (access_token <$> data)]>
              (<["apiKey" := key]> (∅ : dict)) in
          let w' st' :=
            {| store := st';
               calls := calls w ++ [CallGetSession a; CallNewFunctions f headers] |} in
          match new_functions_client f headers st with
          | (inr client, st') => (Return client, c, w' st')
          | (inl e, st') => (Raise (SubClientError e), c, w' st')
          end
      | (inl e, st) =>
          (Raise (SubClientError e), c,
           {| store := st; calls := calls w ++ [CallGetSession a] |})
      end.
Proof.
  intros E. apply create_client_attributes in E as (f & a & p & s & ->).
  exists a, f. split; [reflexivity |]. split; [reflexivity |]. intros w.
  unfold functions, mbind, M_bind, bind, getattr. cbn [Client.functions_url].
  rewrite (get_auth_headers_run _ w a key) by reflexivity. cbv zeta.
  destruct (auth_get_session a (store w)) as [[e|data] st]; [reflexivity |].
  unfold call. cbn [store calls].
  destruct (new_functions_client f _ st) as [[e|fc] st']; rewrite <- app_assoc; reflexivity.
Qed.

(** X13. On a client that [create_client] returned, [rpc(fn, params)] is
    one call of [postgrest.rpc] with the same name and parameters on the
    client's postgrest sub-client, and its outcome is the outcome of the
    method. *)
Theorem X13_rpc
    (url key : string) (opts : ClientOptions.t) (w0 w1 : World) (c : Client.t) :
  create_client url key opts w0 = (Return c, w1) ->
  exists p,
    Client.postgrest c = Some p /\
    forall (fn : string) (params : Params) (w : World),
      rpc fn params c w =
      match postgrest_rpc p fn params (store w) with
      | (inr builder, st) =>
          (Return builder, c,
           {| store := st; calls := calls w ++ [CallPostgrestRpc p fn params] |})
      | (inl e, st) =>
          (Raise (SubClientError e), c,
           {| store := st; calls := calls w ++ [CallPostgrestRpc p fn params] |})
      end.
Proof.
  intros E. apply create_client_attributes in E as (f & a & p & s & ->).
  exists p. split; [reflexivity |]. intros fn params w.
  unfold rpc, mbind, M_bind, bind, getattr, call. cbn [Client.postgrest].
  destruct (postgrest_rpc p fn params (store w)) as [[e|b] st]; reflexivity.
Qed.

Lemma wp_sub_client_only {A : Type} (m : M A) self w :
  wp m (fun r _ _ =>
          match r with
          | Raise (SubClientError _) | Return _ => True
          | Raise _ => False
          end) self w ->
  (exists v, result_of (m self w) = Return v) \/
  (exists x, result_of (m self w) = Raise (SubClientError x)).
Proof.
  unfold wp. destruct (result_of (m self w)) as [v|[msg| |name|x]]; intros H;
    try contradiction; eauto.
Qed.

(** X14. On a client that [create_client] returned, [set_session],
    [functions], [table], [from_] and [rpc] raise nothing of their own:
    each of them returns, or raises what a sub-client raised. In particular
    no attribute is ever missing. *)
Theorem X14_methods_raise_sub_client_errors_only
    (url key : string) (opts : ClientOptions.t) (w0 w1 w : World) (c : Client.t)
    (access refresh name fn : string) (params : Params) :
  create_client url key opts w0 = (Return c, w1) ->
  ((exists v, result_of (set_session access refresh c w) = Return v) \/
   (exists x, result_of (set_session access refresh c w) = Raise (SubClientError x))) /\
  ((exists v, result_of (functions c w) = Return v) \/
   (exists x, result_of (functions c w) = Raise (SubClientError x))) /\
  ((exists v, result_of (table name c w) = Return v) \/
   (exists x, result_of (table name c w) = Raise (SubClientError x))) /\
  ((exists v, result_of (from_ name c w) = Return v) \/
   (exists x, result_of (from_ name c w) = Raise (SubClientError x))) /\
  ((exists v, result_of (rpc fn params c w) = Return v) \/
   (exists x, result_of (rpc fn params c w) = Raise (SubClientError x))).
Proof.
  intros E. apply create_client_attributes in E as (f & a & p & s & ->).
  repeat split; apply wp_sub_client_only.
  - unfold set_session. wp_run; exact I.
  - unfold functions. wp_run; exact I.
  - unfold table, from_. wp_run; exact I.
  - unfold from_. wp_run; exact I.
  - unfold rpc. wp_run; exact I.
Qed.

End Methods.

(** ** The caller's [options.headers] *)

Section Headers.
Context `{B : Backend}.

Ltac keep K :=
  repeat match goal with
         | H : _ = (_, _) |- _ =>
             first [ apply (keeps_new_auth_client K) in H
                   | apply (keeps_auth_get_session K) in H
                   | apply (keeps_auth_set_session K) in H
                   | apply (keeps_new_postgrest_client K) in H
                   | apply (keeps_postgrest_auth K) in H
                   | apply (keeps_postgrest_from K) in H
                   | apply (keeps_postgrest_rpc K) in H
                   | apply (keeps_new_storage_client K) in H
                   | apply (keeps_new_functions_client K) in H ];
             cbn [dicts] in H
         end.

Lemma Client_init_headers (K : keeps_dicts) url key opts w :
  accepted url key = true ->
  wp (Client_init url key opts)
     (fun r _ w' =>
        r = Return tt ->
        exists d1 : option Session,
          dicts (store w') =
          alter (fun d : dict =>
                   <["Authorization" :=
                       "Bearer " +:+
                       Py.format match d1 with
                                 | Some session => Some (access_token session)
                                 | None => None
                                 end]>
                     (<["apiKey" := key]> (∅ : dict)) ∪ d)
                (ClientOptions.headers opts) (dicts (store w)))
     Client.blank w.
Proof.
  intros H. apply accepted_true in H as [H1 [H2 [H3 H4]]].
  unfold Client_init. rewrite H1, H2, H3, H4.
  do 12 wp_step.
  destruct (Re.re_search platform_pattern url);
    [destruct (Py.split "." url) as [|p0 [|p1 [|p2 ps]]] |].
  all: wp_run.
  all: intros E; try discriminate E.
  all: keep K.
  all: match goal with
       | H : context [Py.format (match ?o with _ => _ end)] |- _ => exists o
       end.
  all: cbn [store dicts]; congruence.
Qed.

(** X15. Construction writes into the caller's [options.headers]. If the
    sub-clients leave that dictionary alone, then after a construction that
    returns it holds [apiKey], the key, and an [Authorization] beginning
    with [Bearer ], both replacing an entry of the same name that the
    caller had put there; every other entry, and every other dictionary, is
    as it was. *)
Theorem X15_options_headers_updated
    (url key : string) (opts : ClientOptions.t) (w w' : World) (c : Client.t) (d : dict) :
  keeps_dicts ->
  create_client url key opts w = (Return c, w') ->
  dicts (store w) !! ClientOptions.headers opts = Some d ->
  (exists d' : dict,
     dicts (store w') !! ClientOptions.headers opts = Some d' /\
     d' !! "apiKey" = Some key /\
     (exists token, d' !! "Authorization" = Some ("Bearer " +:+ token)) /\
     forall k : string, k <> "apiKey" -> k <> "Authorization" -> d' !! k = d !! k) /\
  (forall l : loc, l <> ClientOptions.headers opts ->
     dicts (store w') !! l = dicts (store w) !! l).
Proof.
  intros K E Hd. apply create_client_returned in E as [Ha E].
  destruct (wp_elim _ _ _ _ _ _ _ (Client_init_headers K url key opts w Ha) E eq_refl)
    as [d1 Hw].
  rewrite Hw. split.
  - eexists. split; [rewrite lookup_alter_eq, Hd; reflexivity |].
    split; [| split].
    + apply lookup_union_Some_l. rewrite lookup_insert_ne by discriminate.
      apply lookup_insert_eq.
    + eexists. apply lookup_union_Some_l. apply lookup_insert_eq.
    + intros k Hk1 Hk2. apply lookup_union_r.
      rewrite !lookup_insert_ne by congruence. apply lookup_empty.
  - intros l Hl. now rewrite lookup_alter_ne.
Qed.

Lemma run_operation_dicts (K : keeps_dicts) op self w :
  dicts (store (run_operation op self w).2) = dicts (store w).
Proof.
  destruct op as [acc ref| |name|name|fn params]; cbn [run_operation snd].
  - change (wp (set_session acc ref)
              (fun _ _ w' => dicts (store w') = dicts (store w)) self w).
    unfold set_session. wp_run; keep K; congruence.
  - change (wp functions (fun _ _ w' => dicts (store w') = dicts (store w)) self w).
    unfold functions. wp_run; keep K; congruence.
  - change (wp (table name) (fun _ _ w' => dicts (store w') = dicts (store w)) self w).
    unfold table, from_. wp_run; keep K; congruence.
  - change (wp (from_ name) (fun _ _ w' => dicts (store w') = dicts (store w)) self w).
    unfold from_. wp_run; keep K; congruence.
  - change (wp (rpc fn params) (fun _ _ w' => dicts (store w') = dicts (store w)) self w).
    unfold rpc. wp_run; keep K; congruence.
Qed.

(** X16. After construction the facade never writes to [options.headers]
    again: if the sub-clients leave the dictionaries alone, any sequence of
    [set_session], [functions], [table], [from_] and [rpc] calls leaves
    every dictionary as it was. A session installed by [set_session] is
    therefore not reflected in the [Authorization] entry that construction
    stored there. *)
Theorem X16_operations_keep_headers
    (ops : list operation) (self : Client.t) (w : World) :
  keeps_dicts ->
  dicts (store (run_operations ops self w).2) = dicts (store w).
Proof.
  intros K. revert self w. induction ops as [|op ops IH]; intros self w; [reflexivity |].
  cbn [run_operations]. pose proof (run_operation_dicts K op self w) as H.
  destruct (run_operation op self w) as [self' w1]. cbn [snd] in H.
  now rewrite IH, H.
Qed.

End Headers.

(** ** When construction returns *)

Section Success.
Context `{B : Backend}.

Ltac no_raise N :=
  match goal with
  | H : _ = (inl _, _) |- _ =>
      exfalso; revert H;
      first [ apply (returns_new_auth_client N)
            | apply (returns_auth_get_session N)
            | apply (returns_auth_set_session N)
            | apply (returns_new_postgrest_client N)
            | apply (returns_postgrest_auth N)
            | apply (returns_postgrest_from N)
            | apply (returns_postgrest_rpc N)
            | apply (returns_new_storage_client N)
            | apply (returns_new_functions_client N) ]
  end.

Lemma Client_init_no_sub_client_error (N : never_raises) url key opts w :
  accepted url key = true ->
  wp (Client_init url key opts)
     (fun r _ _ => forall x, r <> Raise (SubClientError x))
     Client.blank w.
Proof.
  intros H. apply accepted_true in H as [H1 [H2 [H3 H4]]].
  unfold Client_init. rewrite H1, H2, H3, H4.
  do 12 wp_step.
  destruct (Re.re_search platform_pattern url);
    [destruct (Py.split "." url) as [|p0 [|p1 [|p2 ps]]] |].
  all: wp_run.
  all: try no_raise N.
  all: intros x; discriminate.
Qed.

(** X17. With sub-clients that never raise, [create_client] returns a
    client exactly when the four guards pass and the URL, if it contains
    [supabase.co] or [supabase.in], has at least three pieces between its
    dots. *)
Theorem X17_construction_returns_iff
    (url key : string) (opts : ClientOptions.t) (w : World) :
  never_raises ->
  (exists c w', create_client url key opts w = (Return c, w')) <->
  accepted url key = true /\
  (Str.contains "supabase.co" url || Str.contains "supabase.in" url = true ->
   3 <= length (Py.split "." url)).
Proof.
  intros N. rewrite <- Patterns.platform_pattern_spec. split.
  - intros (c & w' & E). pose proof (create_client_returned _ _ _ _ _ _ E) as [Ha Ei].
    split; [exact Ha |]. intros Hp.
    destruct (le_lt_dec 3 (length (Py.split "." url))) as [Hl | Hl]; [exact Hl |].
    pose proof (Client_init_index_error url key opts w Ha Hp Hl) as H. unfold wp in H.
    rewrite Ei in H. destruct H as [H _]. discriminate.
  - intros [Ha Hl]. rewrite create_client_unfold.
    pose proof (Client_init_raises url key opts w Ha) as Hr.
    pose proof (Client_init_no_sub_client_error N url key opts w Ha) as Hn.
    unfold wp in Hr, Hn.
    destruct (result_of (Client_init url key opts Client.blank w)) as [[]|e]; [eauto |].
    exfalso. destruct e as [msg| |name|x]; try contradiction.
    + destruct Hr as (Hp & Hlt & _). specialize (Hl Hp). lia.
    + now apply (Hn x).
Qed.

End Success.

(** ** The further properties at the running examples *)

Lemma TestBackend_keeps_dicts : @keeps_dicts TestBackend.backend.
Proof. split; simpl; intros; simplify_eq; reflexivity. Qed.

Lemma TestBackend_never_raises : @never_raises TestBackend.backend.
Proof. split; simpl; intros; discriminate. Qed.

Section MoreInstances.
Import TestBackend.

Lemma X1_guard_order_witness :
  create_client "" "" options (world None) =
    (Raise (SupabaseException "supabase_url is required"), world None) /\
  create_client "ftp://example.com" "" options (world None) =
    (Raise (SupabaseException "supabase_key is required"), world None) /\
  create_client "ftp://example.com" "abc" options (world None) =
    (Raise (SupabaseException "Invalid URL"), world None) /\
  create_client "https://xyz.supabase.co" "abc" options (world None) =
    (Raise (SupabaseException "Invalid API key"), world None).
Proof.
  split; [| split; [| split]].
  - apply (X1_guard_order "" "" options (world None)). reflexivity.
  - apply (X1_guard_order "ftp://example.com" "" options (world None));
      [discriminate | reflexivity].
  - apply (X1_guard_order "ftp://example.com" "abc" options (world None));
      [discriminate | discriminate | vm_compute; reflexivity].
  - apply (X1_guard_order "https://xyz.supabase.co" "abc" options (world None));
      [discriminate | discriminate | vm_compute; reflexivity | vm_compute; reflexivity].
Defined.

Lemma X2_configuration_error_iff_witness :
  (exists msg, create_client "https://xyz.supabase.co" "abc" options (world None) =
               (Raise (SupabaseException msg), world None)) /\
  (("ftp://example.com" = "" \/ "a.b.c" = "" \/
    Re.re_match url_pattern "ftp://example.com" = false \/
    Re.re_match key_pattern "a.b.c" = false) /\ world None = world None).
Proof.
  split.
  - apply (X2_configuration_error_iff "https://xyz.supabase.co" "abc" options
             (world None) (world None)).
    split; [| reflexivity]. right. right. right. vm_compute. reflexivity.
  - apply (X2_configuration_error_iff "ftp://example.com" "a.b.c" options
             (world None) (world None)).
    exists "Invalid URL". vm_compute. reflexivity.
Defined.

Lemma X3_index_error_iff_witness :
  create_client "http://supabase.com" "a.b.c" options (world None) =
    (Raise IndexError, world None) /\
  (accepted "https://supabase.in" "a.b.c" = true /\
   Str.contains "supabase.co" "https://supabase.in" ||
   Str.contains "supabase.in" "https://supabase.in" = true /\
   length (Py.split "." "https://supabase.in") < 3 /\
   world None = world None).
Proof.
  split.
  - apply (X3_index_error_iff "http://supabase.com" "a.b.c" options (world None) (world None)).
    split; [vm_compute; reflexivity |]. split; [vm_compute; reflexivity |].
    split; [simpl; lia | reflexivity].
  - apply (X3_index_error_iff "https://supabase.in" "a.b.c" options (world None) (world None)).
    vm_compute. reflexivity.
Defined.

Lemma X4_no_attribute_error_witness :
  create_client "https://supabase.co" "a.b.c" options (world None) =
    (Raise IndexError, world None) /\
  ((exists msg, IndexError = SupabaseException msg) \/ IndexError = IndexError \/
   (exists x, IndexError = SubClientError x)).
Proof.
  assert (E : create_client "https://supabase.co" "a.b.c" options (world None) =
              (Raise IndexError, world None)) by (vm_compute; reflexivity).
  split; [exact E |].
  exact (X4_no_attribute_error "https://supabase.co" "a.b.c" options (world None)
           (world None) IndexError E).
Defined.

Lemma X5_accepted_shape_witness :
  accepted "https://xyz.supabase.co" "a.b.c" = true /\
  (exists (scheme : string) (c : ascii) (rest : string),
     (scheme = "http" \/ scheme = "https") /\ c <> "010"%char /\
     "https://xyz.supabase.co" = scheme +:+ "://" +:+ String c rest) /\
  (exists a b t nl : string,
     "a.b.c" = a +:+ "." +:+ b +:+ t +:+ nl /\
     a <> "" /\ Str.all jwt_char a = true /\
     b <> "" /\ Str.all jwt_char b = true /\
     Str.all jwt_tail_char t = true /\
     (nl = "" \/ nl = String "010" "")).
Proof.
  assert (Ha : accepted "https://xyz.supabase.co" "a.b.c" = true) by (vm_compute; reflexivity).
  split; [exact Ha |].
  exact (proj1 (X5_accepted_shape "https://xyz.supabase.co" "a.b.c") Ha).
Defined.

Lemma X6_trailing_newline_witness :
  accepted "https://xyz.supabase.co" "a.b.c" = true /\
  (forall k, "a.b.c" <> k +:+ String "010" "") /\
  accepted "https://xyz.supabase.co" ("a.b.c" +:+ String "010" "") = true /\
  Client.supabase_key
    (initialised "https://xyz.supabase.co" ("a.b.c" +:+ String "010" "") options
       (world None)) =
  Some ("a.b.c" +:+ String "010" "").
Proof.
  assert (Ha : accepted "https://xyz.supabase.co" "a.b.c" = true) by (vm_compute; reflexivity).
  assert (Hk : forall k, "a.b.c" <> k +:+ String "010" "").
  { intros k. destruct k as [|? [|? [|? [|? [|? [|? k]]]]]]; discriminate. }
  split; [exact Ha |]. split; [exact Hk |].
  exact (X6_trailing_newline "https://xyz.supabase.co" "a.b.c" options (world None) Ha Hk).
Defined.

Lemma X7_endpoint_schemes_witness :
  accepted "https://xyz.supabase.co" "a.b.c" = true /\
  exists scheme ws rest : string,
    (scheme = "http" /\ ws = "ws" \/ scheme = "https" /\ ws = "wss") /\
    "https://xyz.supabase.co" = scheme +:+ "://" +:+ rest /\
    Client.realtime_url (initialised "https://xyz.supabase.co" "a.b.c" options (world None)) =
      Some (ws +:+ "://" +:+ Py.replace "http" "ws" (rest +:+ "/realtime/v1")) /\
    forall f,
      Client.functions_url
        (initialised "https://xyz.supabase.co" "a.b.c" options (world None)) = Some f ->
      Str.starts_with (scheme +:+ "://") f = true.
Proof.
  assert (Ha : accepted "https://xyz.supabase.co" "a.b.c" = true) by (vm_compute; reflexivity).
  split; [exact Ha |].
  exact (X7_endpoint_schemes "https://xyz.supabase.co" "a.b.c" options (world None) Ha).
Defined.

Lemma X8_realtime_scheme_only_witness :
  (accepted "http://localhost:54321" "a.b.c" = true /\
   Str.contains "http" "localhost:54321" = false /\
   Client.realtime_url (initialised "http://localhost:54321" "a.b.c" options (world None)) =
     Some "ws://localhost:54321/realtime/v1") /\
  (accepted "https://xyz.supabase.co" "a.b.c" = true /\
   Str.contains "http" "xyz.supabase.co" = false /\
   Client.realtime_url (initialised "https://xyz.supabase.co" "a.b.c" options (world None)) =
     Some "wss://xyz.supabase.co/realtime/v1").
Proof.
  split.
  - split; [vm_compute; reflexivity |]. split; [vm_compute; reflexivity |].
    refine (proj1 (X8_realtime_scheme_only "http://localhost:54321" "a.b.c"
                     "localhost:54321" options (world None) _ _) _);
      [vm_compute; reflexivity | vm_compute; reflexivity | reflexivity].
  - split; [vm_compute; reflexivity |]. split; [vm_compute; reflexivity |].
    refine (proj2 (X8_realtime_scheme_only "https://xyz.supabase.co" "a.b.c"
                     "xyz.supabase.co" options (world None) _ _) _);
      [vm_compute; reflexivity | vm_compute; reflexivity | reflexivity].
Defined.

Lemma X9_functions_rewrite_witness :
  accepted "https://xyz.supabase.co/a.b" "a.b.c" = true /\
  Str.contains "supabase.co" "https://xyz.supabase.co/a.b" ||
  Str.contains "supabase.in" "https://xyz.supabase.co/a.b" = true /\
  Py.split "." "https://xyz.supabase.co/a.b" = ["https://xyz"; "supabase"; "co/a"; "b"] /\
  "https://xyz.supabase.co/a.b" =
    "https://xyz" +:+ "." +:+ "supabase" +:+ "." +:+ "co/a" +:+ "." +:+ Py.join "." ["b"] /\
  Client.functions_url
    (initialised "https://xyz.supabase.co/a.b" "a.b.c" options (world None)) =
  Some "https://xyz.functions.supabase.co/a".
Proof.
  split; [vm_compute; reflexivity |]. split; [vm_compute; reflexivity |].
  split; [reflexivity |].
  apply (X9_functions_rewrite "https://xyz.supabase.co/a.b" "a.b.c"
           "https://xyz" "supabase" "co/a" ["b"] options (world None));
    [vm_compute; reflexivity | vm_compute; reflexivity | reflexivity].
Defined.


Lemma X12_functions_witness :
  create_client url key options (world None) = (Return client, client_world) /\
  functions client client_world =
  (Return ("https://xyz.functions.supabase.co",
           <["Authorization" := "Bearer None"]> (<["apiKey" := "a.b.c"]> (∅ : dict))),
   client,
   {| store := store client_world;
      calls := calls client_world ++
        [CallGetSession "https://xyz.supabase.co/auth/v1";
         CallNewFunctions "https://xyz.functions.supabase.co"
           (<["Authorization" := "Bearer None"]> (<["apiKey" := "a.b.c"]> (∅ : dict)))] |}).
Proof.
  assert (E : create_client url key options (world None) = (Return client, client_world))
    by (vm_compute; reflexivity).
  split; [exact E |].
  destruct (X12_functions url key options (world None) client_world client E)
    as (a & f & Ha & Hf & H).
  rewrite H. injection Ha as <-. injection Hf as <-. reflexivity.
Defined.

Lemma X13_rpc_witness :
  create_client url key options (world None) = (Return client, client_world) /\
  rpc "hello" [] client client_world =
  (Return ("https://xyz.supabase.co/rest/v1", "hello"), client,
   {| store := store client_world;
      calls := calls client_world ++
               [CallPostgrestRpc "https://xyz.supabase.co/rest/v1" "hello" []] |}).
Proof.
  assert (E : create_client url key options (world None) = (Return client, client_world))
    by (vm_compute; reflexivity).
  split; [exact E |].
  destruct (X13_rpc url key options (world None) client_world client E) as (p & Hp & H).
  rewrite H. injection Hp as <-. reflexivity.
Defined.

Lemma X14_methods_raise_sub_client_errors_only_witness :
  create_client url key options (world None) = (Return client, client_world) /\
  ((exists v, result_of (set_session "access" "refresh" client client_world) = Return v) \/
   (exists x, result_of (set_session "access" "refresh" client client_world) =
              Raise (SubClientError x))).
Proof.
  assert (E : create_client url key options (world None) = (Return client, client_world))
    by (vm_compute; reflexivity).
  split; [exact E |].
  exact (proj1 (X14_methods_raise_sub_client_errors_only url key options (world None)
                  client_world client_world client "access" "refresh" "countries" "hello"
                  [] E)).
Defined.

Lemma X15_options_headers_updated_witness :
  let d : dict := <["Authorization" := "Bearer stale"]> (<["X-Client" := "me"]> ∅) in
  let w := {| store := {| dicts := {[ 1%positive := d ]};
                          ext := {| session := None; bearer := None |} |};
              calls := [] |} in
  let r := create_client url key options w in
  keeps_dicts /\ r = (Return client, r.2) /\
  dicts (store w) !! ClientOptions.headers options = Some d /\
  exists d' : dict,
    dicts (store r.2) !! ClientOptions.headers options = Some d' /\
    d' !! "apiKey" = Some key /\
    (exists token, d' !! "Authorization" = Some ("Bearer " +:+ token)) /\
    d' !! "X-Client" = Some "me".
Proof.
  intros d w r.
  assert (E : r = (Return client, r.2)) by (vm_compute; reflexivity).
  assert (Hd : dicts (store w) !! ClientOptions.headers options = Some d)
    by (vm_compute; reflexivity).
  split; [exact TestBackend_keeps_dicts |]. split; [exact E |]. split; [exact Hd |].
  destruct (X15_options_headers_updated url key options w r.2 client d
              TestBackend_keeps_dicts E Hd) as [(d' & H1 & H2 & H3 & H4) _].
  exists d'. split; [exact H1 |]. split; [exact H2 |]. split; [exact H3 |].
  rewrite H4 by discriminate. vm_compute. reflexivity.
Defined.

Lemma X16_operations_keep_headers_witness :
  keeps_dicts /\
  dicts (store (run_operations
                  [OpSetSession "access" "refresh"; OpFunctions; OpTable "countries";
                   OpRpc "hello" []] client client_world).2) =
  dicts (store client_world).
Proof.
  split; [exact TestBackend_keeps_dicts |].
  exact (X16_operations_keep_headers
           [OpSetSession "access" "refresh"; OpFunctions; OpTable "countries";
            OpRpc "hello" []] client client_world TestBackend_keeps_dicts).
Defined.

Lemma X17_construction_returns_iff_witness :
  never_raises /\
  (accepted "https://example.com:8000" "a.b.c" = true /\
   (Str.contains "supabase.co" "https://example.com:8000" ||
    Str.contains "supabase.in" "https://example.com:8000" = true ->
    3 <= length (Py.split "." "https://example.com:8000"))) /\
  exists c w', create_client "https://example.com:8000" "a.b.c" options (world None) =
               (Return c, w').
Proof.
  assert (H : accepted "https://example.com:8000" "a.b.c" = true /\
              (Str.contains "supabase.co" "https://example.com:8000" ||
               Str.contains "supabase.in" "https://example.com:8000" = true ->
               3 <= length (Py.split "." "https://example.com:8000"))).
  { split; [vm_compute; reflexivity |]. vm_compute. discriminate. }
  split; [exact TestBackend_never_raises |]. split; [exact H |].
  exact (proj2 (X17_construction_returns_iff "https://example.com:8000" "a.b.c" options
                  (world None) TestBackend_never_raises) H).
Defined.

End MoreInstances.

Section DownInstances.
Import DownBackend.

Lemma X11_auth_constructor_raises_witness :
  accepted "https://xyz.supabase.co" "a.b.c" = true /\
  3 <= length (Py.split "." "https://xyz.supabase.co") /\
  new_auth_client "https://xyz.supabase.co/auth/v1" true true tt 1%positive (store world) =
    (inl "auth is down", store world) /\
  create_client "https://xyz.supabase.co" "a.b.c" options world =
  (Raise (SubClientError "auth is down"),
   {| store := store world;
      calls := [CallNewAuth "https://xyz.supabase.co/auth/v1" true true tt 1%positive] |}).
Proof.
  split; [vm_compute; reflexivity |]. split; [simpl; lia |]. split; [reflexivity |].
  apply (X11_auth_constructor_raises "https://xyz.supabase.co" "a.b.c" options world
           "auth is down" (store world));
    [vm_compute; reflexivity | intros _; simpl; lia | reflexivity].
Defined.

End DownInstances.
